(** * Attested key retrieval and model decryption (cnap/core)

    A shallow embedding of [cnap/core/keybroker.py] and of the retrieval
    part of [cnap/core/model.py].

    Python values are modelled by [pyval]; byte strings by [list byte];
    text by [string], one character per code point below 256.  Calls that
    leave the process (RSA key generation, the CCNP quote service, HTTP,
    the file system, the cryptography library) go through a [Platform]
    record of collaborators; every such call is logged in the [trace] of
    the [World] that the [M] monad threads through the code. *)

From stdpp Require Import gmap strings list.
From Stdlib Require Import ZArith Lia Ascii Strings.Byte DecimalString.

Local Open Scope Z_scope.

(** ** Python values and exceptions *)

Abbreviation bytes := (list byte).

(** The values a decoded JSON document (or a caller) hands to the code.
    [POpaque] stands for a float, a list or a dict: the code only ever
    formats such a value with [str()] or tests its truthiness. *)
Inductive pyval :=
  | PNone
  | PBool (b : bool)
  | PInt (z : Z)
  | PStr (s : string)
  | POpaque (repr : string) (truthy : bool).

Definition is_None (v : pyval) : bool :=
  match v with PNone => true | _ => false end.

(** [bool(v)] *)
Definition truthy (v : pyval) : bool :=
  match v with
  | PNone => false
  | PBool b => b
  | PInt z => negb (z =? 0)
  | PStr s => negb (String.eqb s "")
  | POpaque _ t => t
  end.

(** [str(v)], as an f-string renders it. *)
Definition py_str (v : pyval) : string :=
  match v with
  | PNone => "None"
  | PBool true => "True"
  | PBool false => "False"
  | PInt z => NilZero.string_of_int (Z.to_int z)
  | PStr s => s
  | POpaque r _ => r
  end.

(** [v == "lit"] for a string literal. *)
Definition eq_str (v : pyval) (lit : string) : bool :=
  match v with PStr s => String.eqb s lit | _ => false end.

Inductive exn :=
  | ValueError (msg : string)
  | RuntimeError (msg : string)
  | ConnectionError (msg : string) (status_code : Z)
  | TypeError (msg : string)
  | AttributeError (msg : string)
  | StructError (msg : string)
  | LibraryError (cls msg : string).

Inductive result (A : Type) :=
  | Ok (a : A)
  | Raise (e : exn).
Arguments Ok {A} a.
Arguments Raise {A} e.

(** ** Byte strings *)

Definition byte_Z (b : byte) : Z := Z.of_N (Byte.to_N b).

(** An index of a slice, as [PySlice_AdjustIndices] clamps it for a
    sequence of length [n] and step 1. *)
Definition py_index (n i : Z) : Z :=
  if i <? 0 then Z.max 0 (i + n) else Z.min i n.

(** [l[lo:hi]]; [None] is an omitted bound. *)
Definition py_slice {A} (l : list A) (lo hi : option Z) : list A :=
  let n := Z.of_nat (length l) in
  let a := match lo with Some i => py_index n i | None => 0 end in
  let b := match hi with Some j => py_index n j | None => n end in
  take (Z.to_nat (b - a)) (drop (Z.to_nat a) l).

(** One ['<I'] field: four bytes, least significant first. *)
Definition le_u32 (b0 b1 b2 b3 : byte) : Z :=
  Z.lor (byte_Z b0)
    (Z.lor (Z.shiftl (byte_Z b1) 8)
       (Z.lor (Z.shiftl (byte_Z b2) 16) (Z.shiftl (byte_Z b3) 24))).

(** [struct.unpack('<3I', buf)] *)
Definition struct_unpack_3I (buf : bytes) : result (Z * Z * Z) :=
  match buf with
  | [a0; a1; a2; a3; b0; b1; b2; b3; c0; c1; c2; c3] =>
      Ok (le_u32 a0 a1 a2 a3, le_u32 b0 b1 b2 b3, le_u32 c0 c1 c2 c3)
  | _ => Raise (StructError "unpack requires a buffer of 12 bytes")
  end.

(** ** Base64 ([base64.b64encode(...).decode('utf-8')]) *)

Definition b64_alphabet : string :=
  "ABCDEFGHIJKLMNOPQRSTUVWXYZabcdefghijklmnopqrstuvwxyz0123456789+/".

Definition b64_char (i : Z) : ascii :=
  match String.get (Z.to_nat (Z.land i 63)) b64_alphabet with
  | Some c => c
  | None => "="%char
  end.

Fixpoint b64encode (bs : bytes) : string :=
  match bs with
  | [] => ""
  | [a] =>
      let n := Z.shiftl (byte_Z a) 16 in
      String (b64_char (Z.shiftr n 18))
        (String (b64_char (Z.shiftr n 12)) "==")
  | [a; b] =>
      let n := Z.lor (Z.shiftl (byte_Z a) 16) (Z.shiftl (byte_Z b) 8) in
      String (b64_char (Z.shiftr n 18))
        (String (b64_char (Z.shiftr n 12))
           (String (b64_char (Z.shiftr n 6)) "="))
  | a :: b :: c :: rest =>
      let n := Z.lor (Z.shiftl (byte_Z a) 16)
                 (Z.lor (Z.shiftl (byte_Z b) 8) (byte_Z c)) in
      String (b64_char (Z.shiftr n 18))
        (String (b64_char (Z.shiftr n 12))
           (String (b64_char (Z.shiftr n 6))
              (String (b64_char n) (b64encode rest))))
  end.

(** ** The platform and the world *)

Record RSAPublicKey := { pub_n : Z; pub_e : Z }.
Record RSAPrivateKey := { rsa_n : Z; rsa_e : Z; rsa_d : Z }.

(** [private_key.public_key()] *)
Definition public_key (k : RSAPrivateKey) : RSAPublicKey :=
  {| pub_n := rsa_n k; pub_e := rsa_e k |}.

(** A [requests.Response]: [json_body] is what [resp.json()] gives. *)
Record Response := {
  status_code : Z;
  json_body : result (gmap string pyval);
  content : bytes
}.

(** The body of the key transfer request.  The headers ([Accept] and
    [Content-Type] [application/json], [Attestation-Type: TDX]) and
    [verify=False] are the same on every call. *)
Record TransferRequest := { quote : string; user_data : string }.

(** How one [requests.post] ends. *)
Inductive post_outcome :=
  | PostResponse (r : Response)
  | PostConnectionError
  | PostRaises (e : exn).

(** Everything outside the two modules.  The [nat] argument of a
    collaborator that depends on the outside world is the number of
    earlier calls of its kind. *)
Record Platform := {
  rsa_generate_private_key : nat -> Z -> Z -> RSAPrivateKey;
  public_bytes : RSAPublicKey -> bytes;
  ccnp_get_quote : string -> result (option bytes);
  requests_post : nat -> string -> TransferRequest -> post_outcome;
  requests_get : nat -> string -> result Response;
  b64decode : pyval -> result bytes;
  rsa_oaep_decrypt : RSAPrivateKey -> bytes -> result bytes;
  aes_gcm_decrypt : bytes -> bytes -> bytes -> bytes -> result bytes;
  open_wb : string -> result unit;
  file_write : string -> bytes -> result unit
}.

Inductive event :=
  | EvGenerateKey (public_exponent key_size : Z)
  | EvGetQuote (nonce : string)
  | EvPost (url : string) (req : TransferRequest) (o : post_outcome)
  | EvGet (url : string)
  | EvOpen (path : string)
  | EvWrite (path : string) (data : bytes).

Record World := {
  rng_draws : nat;
  posts_made : nat;
  gets_made : nat;
  trace : list event
}.

Definition world0 : World :=
  {| rng_draws := 0; posts_made := 0; gets_made := 0; trace := [] |}.

Definition log (e : event) (w : World) : World :=
  {| rng_draws := rng_draws w; posts_made := posts_made w;
     gets_made := gets_made w; trace := trace w ++ [e] |}.

(** ** The monad of the code: state and exceptions *)

Definition M (A : Type) : Type := World -> result A * World.

Definition ret {A} (a : A) : M A := fun w => (Ok a, w).
Definition raise {A} (e : exn) : M A := fun w => (Raise e, w).
Definition bind {A B} (m : M A) (k : A -> M B) : M B :=
  fun w =>
    match m w with
    | (Ok a, w') => k a w'
    | (Raise e, w') => (Raise e, w')
    end.
Definition lift {A} (r : result A) : M A := fun w => (r, w).

Notation "x <- m ;; k" := (bind m (fun x => k))
  (at level 100, m at next level, right associativity).

(** ** Calls into the platform *)

Definition draw (w : World) : World :=
  {| rng_draws := S (rng_draws w); posts_made := posts_made w;
     gets_made := gets_made w; trace := trace w |}.

Definition count_post (w : World) : World :=
  {| rng_draws := rng_draws w; posts_made := S (posts_made w);
     gets_made := gets_made w; trace := trace w |}.

Definition count_get (w : World) : World :=
  {| rng_draws := rng_draws w; posts_made := posts_made w;
     gets_made := S (gets_made w); trace := trace w |}.

(** [rsa.generate_private_key(public_exponent=e, key_size=bits)]: the key
    is the one the generator gives at the current draw, and the draw is
    used up. *)
Definition generate_private_key (P : Platform) (e bits : Z)
  : M RSAPrivateKey :=
  fun w => (Ok (rsa_generate_private_key P (rng_draws w) e bits),
            log (EvGenerateKey e bits) (draw w)).

(** [Quote.get_quote(nonce=nonce)]; [Some q] is a quote object whose
    [.quote] is [q]. *)
Definition get_quote (P : Platform) (nonce : string) : M (option bytes) :=
  fun w => (ccnp_get_quote P nonce, log (EvGetQuote nonce) w).

(** [requests.post(url, json=req, headers=headers, verify=False)] *)
Definition post (P : Platform) (url : string) (req : TransferRequest)
  : M post_outcome :=
  fun w => let o := requests_post P (posts_made w) url req in
           (Ok o, log (EvPost url req o) (count_post w)).

(** [requests.get(url)] *)
Definition get (P : Platform) (url : string) : M Response :=
  fun w => (requests_get P (gets_made w) url, log (EvGet url) (count_get w)).

(** ** keybroker.py: [AmberKeyBrokerClient] *)

Definition header_len : Z := 12.

(** [decrypt_data(self, encrypted_data, key)].  The cipher object, its
    [update] and its [finalize] are the platform's [aes_gcm_decrypt],
    called with the key, the IV, the tag and the data in that order. *)
Definition decrypt_data (P : Platform) (encrypted_data key : option bytes)
  : result bytes :=
  match encrypted_data with
  | None => Raise (ValueError "The encrypted data can not be None")
  | Some encrypted_data =>
    match key with
    | None => Raise (ValueError "The key can not be None")
    | Some key =>
      match struct_unpack_3I (py_slice encrypted_data None (Some header_len)) with
      | Raise e => Raise e
      | Ok (iv_len, tag_len, data_len) =>
        let iv :=
          py_slice encrypted_data (Some header_len) (Some (iv_len + header_len)) in
        let data :=
          py_slice encrypted_data (Some (iv_len + header_len)) (Some (- tag_len)) in
        let tag := py_slice encrypted_data (Some (- tag_len)) None in
        aes_gcm_decrypt P key iv tag data
      end
    end
  end.

(** The loop [for _ in range(3)] of [get_key], with [n] rounds left and
    [resp] the loop's variable. *)
Fixpoint post_retry (P : Platform) (amber_api : string) (req : TransferRequest)
    (n : nat) (resp : option Response) : M (option Response) :=
  match n with
  | O => ret resp
  | S n' =>
      o <- post P amber_api req ;;
      match o with
      | PostResponse r =>
          if status_code r =? 200 then ret (Some r)
          else post_retry P amber_api req n' (Some r)
      | PostConnectionError => post_retry P amber_api req n' resp
      | PostRaises e => raise e
      end
  end.

(** [get_key] from [resp.json()] on: the wrapped keys are decoded, the SWK
    is recovered with the private key and unwraps the content key. *)
Definition unwrap_key (P : Platform) (private_key : RSAPrivateKey)
    (resp : Response) : result bytes :=
  match json_body resp with
  | Raise e => Raise e
  | Ok resp_body =>
    match resp_body !! "wrapped_key", resp_body !! "wrapped_swk" with
    | Some wk, Some ws =>
      match b64decode P wk with
      | Raise e => Raise e
      | Ok wrapped_key =>
        match b64decode P ws with
        | Raise e => Raise e
        | Ok wrapped_swk =>
          match rsa_oaep_decrypt P private_key wrapped_swk with
          | Raise e => Raise e
          | Ok swk => decrypt_data P (Some wrapped_key) (Some swk)
          end
        end
      end
    | _, _ => Raise (RuntimeError "Empty key response from Amber KBS")
    end
  end.

(** [get_key(self, server_url, key_id)] *)
Definition get_key (P : Platform) (server_url key_id : pyval) : M bytes :=
  if is_None server_url then
    raise (ValueError "KBS server url can not be None")
  else if is_None key_id then
    raise (ValueError "KBS key id can not be None")
  else
    private_key <- generate_private_key P 65537 3072 ;;
    let pubkey_der := public_bytes P (public_key private_key) in
    let user_data := b64encode pubkey_der in
    tdquote <- get_quote P user_data ;;
    match tdquote with
    | None => raise (RuntimeError "Get TDX Quote failed")
    | Some tdquote =>
      let req := {| quote := b64encode tdquote; user_data := user_data |} in
      let amber_api :=
        py_str server_url +:+ "/keys/" +:+ py_str key_id +:+ "/transfer" in
      resp <- post_retry P amber_api req 3 None ;;
      match resp with
      | None => raise (RuntimeError "Unexpected response from Amber KBS")
      | Some resp =>
        if negb (status_code resp =? 200) then
          raise (RuntimeError "Unexpected response from Amber KBS")
        else lift (unwrap_key P private_key resp)
      end
    end.

(** ** Text *)

(** [s.split(sep)] for a one-character separator; never empty. *)
Fixpoint split (sep : ascii) (s : string) : list string :=
  match s with
  | EmptyString => [EmptyString]
  | String c s' =>
      if Ascii.eqb c sep then EmptyString :: split sep s'
      else match split sep s' with
           | h :: t => String c h :: t
           | [] => [String c EmptyString]
           end
  end.

(** [l[-1]] of a list with a default for the empty one. *)
Fixpoint last_item (l : list string) (d : string) : string :=
  match l with
  | [] => d
  | [x] => x
  | _ :: l' => last_item l' d
  end.

(** [s.replace(old, new)] for a non-empty [old]: every occurrence, found
    from the left and not overlapping.  [skip] characters of a match are
    still to be dropped. *)
Fixpoint replace_from (old new : string) (skip : nat) (s : string) : string :=
  match s with
  | EmptyString => EmptyString
  | String c s' =>
      match skip with
      | S k => replace_from old new k s'
      | O =>
          if String.prefix old s
          then new +:+ replace_from old new (String.length old - 1) s'
          else String c (replace_from old new O s')
      end
  end.

Definition replace (old new s : string) : string := replace_from old new O s.

(** [c.isspace()] for a code point below 256. *)
Definition isspace (c : ascii) : bool :=
  let n := Z.of_nat (nat_of_ascii c) in
  ((9 <=? n) && (n <=? 13)) || ((28 <=? n) && (n <=? 32))
  || (n =? 133) || (n =? 160).

Fixpoint lstrip (s : string) : string :=
  match s with
  | EmptyString => EmptyString
  | String c s' => if isspace c then lstrip s' else s
  end.

Fixpoint rstrip (s : string) : string :=
  match s with
  | EmptyString => EmptyString
  | String c s' =>
      match rstrip s' with
      | EmptyString => if isspace c then EmptyString else String c EmptyString
      | r => String c r
      end
  end.

(** [s.strip()] *)
Definition strip (s : string) : string := rstrip (lstrip s).

(** [a + b] on two values that must both be [str]. *)
Definition str_add (a b : pyval) : result pyval :=
  match a, b with
  | PStr x, PStr y => Ok (PStr (x +:+ y))
  | _, _ => Raise (TypeError "unsupported operand type(s) for +")
  end.

(** [v.split('/')[-1]]: only a [str] has [split]. *)
Definition last_segment (v : pyval) : result string :=
  match v with
  | PStr s => Ok (last_item (split "/" s) EmptyString)
  | _ => Raise (AttributeError "object has no attribute 'split'")
  end.

(** ** model.py *)

Record ModelMetrics := {
  _accuracy : pyval; _precision : pyval; _recall : pyval;
  _f1_score : pyval; _loss : pyval
}.

Record ModelDetails := {
  _name : pyval; _version : pyval; _framework : pyval;
  _target : pyval; _dtype : pyval
}.

(** [info_id] is the attribute [_id] of [ModelInfo]. *)
Record ModelInfo := {
  info_id : pyval;
  _details : ModelDetails;
  _uploaded_date : pyval;
  _metrics : ModelMetrics
}.

(** [_id] is the attribute [_id] of [Model]; [None] in an option is
    Python's [None]. *)
Record Model := {
  _id : pyval;
  _server : pyval;
  _model_info : option ModelInfo;
  _model_binary : option bytes;
  _path : option string
}.

(** The properties of the classes read the private attributes. *)
Definition accuracy := _accuracy.
Definition precision := _precision.
Definition recall := _recall.
Definition f1_score := _f1_score.
Definition loss := _loss.
Definition uploaded_date := _uploaded_date.
Definition metrics := _metrics.
Definition model_info := _model_info.
Definition path := _path.

(** [value = lambda key: None if key not in meta_data else meta_data[key]] *)
Definition value (meta_data : gmap string pyval) (key : string) : pyval :=
  match meta_data !! key with
  | None => PNone
  | Some v => v
  end.

(** An exception object that is built and dropped: the statement
    [ValueError("...")] without [raise]. *)
Definition built_not_raised (e : exn) : M unit := ret tt.

(** [decrypt_model(self, kbs, kbs_url, key_id, model_data)]; the result
    [None] is Python's [None], returned when the function falls off its
    end. *)
Definition decrypt_model (P : Platform) (kbs kbs_url key_id : pyval)
    (model_data : bytes) : M (option bytes) :=
  _ <- (if is_None kbs
        then built_not_raised (ValueError "The KBS name/type can not be None")
        else ret tt) ;;
  _ <- (if is_None kbs_url
        then built_not_raised (ValueError "The KBS url can not be None")
        else ret tt) ;;
  _ <- (if is_None key_id
        then built_not_raised (ValueError "The key id can not be None")
        else ret tt) ;;
  if eq_str kbs "amber" then
    key <- get_key P kbs_url key_id ;;
    plain <- lift (decrypt_data P (Some model_data) (Some key)) ;;
    ret (Some plain)
  else ret None.

(** [open(path, "wb").write(data)]: the file is opened (created or
    truncated) before [write] looks at its argument.  [EvWrite] records
    the call of [write] on bytes; the call can itself raise, as when the
    disk is full, and may then have written a part of the data. *)
Definition open_write (P : Platform) (path : string) (data : option bytes)
  : M unit :=
  fun w =>
    match open_wb P path with
    | Raise e => (Raise e, log (EvOpen path) w)
    | Ok _ =>
        match data with
        | None =>
            (Raise (TypeError "a bytes-like object is required, not 'NoneType'"),
             log (EvOpen path) w)
        | Some d =>
            (file_write P path d, log (EvWrite path d) (log (EvOpen path) w))
        end
    end.

(** [get_model_info(self)].  Both downloads are [requests.get]; the first
    one carries the JSON headers.  [requests] turns a URL that is not a
    string into one with [str()]. *)
Definition get_model_info (P : Platform) (self : Model) : M Model :=
  prefix <- lift (str_add (_server self) (PStr "/")) ;;
  meta_data_url <- lift (str_add prefix (_id self)) ;;
  resp <- get P (py_str meta_data_url) ;;
  if negb (status_code resp =? 200) then
    raise (ConnectionError "Connect model server failed, error code: "
             (status_code resp))
  else
    meta_data <- lift (json_body resp) ;;
    if is_None (value meta_data "id") || is_None (value meta_data "url") then
      raise (RuntimeError "Model meta data is not valid")
    else
      resp <- get P (py_str (value meta_data "url")) ;;
      if negb (status_code resp =? 200) then
        raise (ConnectionError "Download model from server failed, error code: "
                 (status_code resp))
      else
        let model_data := content resp in
        model_filename <- lift (last_segment (value meta_data "url")) ;;
        let model_filename := strip (replace ".enc" "" model_filename) in
        let path := "/tmp/" +:+ model_filename in
        model_data <-
          (if truthy (value meta_data "encrypted")
           then decrypt_model P (value meta_data "kbs") (value meta_data "kbs_url")
                  (value meta_data "key_id") model_data
           else ret (Some model_data)) ;;
        _ <- open_write P path model_data ;;
        let model_detail :=
          {| _name := value meta_data "name";
             _version := value meta_data "version";
             _framework := value meta_data "framework";
             _target := value meta_data "target";
             _dtype := value meta_data "dtype" |} in
        let model_metrics :=
          {| _accuracy := PInt 0; _precision := PInt 0; _recall := PInt 0;
             _f1_score := PInt 0; _loss := PInt 0 |} in
        ret {| _id := _id self; _server := _server self;
               _model_info :=
                 Some {| info_id := value meta_data "id";
                         _details := model_detail;
                         _uploaded_date := PInt 0;
                         _metrics := model_metrics |};
               _model_binary := _model_binary self;
               _path := Some path |}.

(** [Model.__init__(self, server, model_id)] *)
Definition Model_init (P : Platform) (server model_id : pyval) : M Model :=
  if is_None model_id || is_None server then
    raise (ValueError "Model server or model id can not be None")
  else
    get_model_info P
      {| _id := model_id; _server := server; _model_info := None;
         _model_binary := None; _path := None |}.

(** ** Observing a run *)

(** The events a computation adds to the trace of the world it starts in. *)
Definition events_of {A} (m : M A) (w : World) : list event :=
  drop (length (trace w)) (trace (snd (m w))).

(** What an observer reads off a result. *)
Definition on_result {A B} (f : A -> B) (r : result A) : result B :=
  match r with
  | Ok a => Ok (f a)
  | Raise e => Raise e
  end.

(** The outcomes of the POSTs among some events, in order. *)
Fixpoint posts_of (evs : list event) : list post_outcome :=
  match evs with
  | [] => []
  | EvPost _ _ o :: evs' => o :: posts_of evs'
  | _ :: evs' => posts_of evs'
  end.

Definition is_generate_key (e : event) : bool :=
  match e with EvGenerateKey _ _ => true | _ => false end.

Definition is_get_quote (e : event) : bool :=
  match e with EvGetQuote _ => true | _ => false end.

(** An outcome after which the loop of [get_key] goes round again: the
    connection failed, or a response came back whose status is not 200. *)
Definition retryable (o : post_outcome) : bool :=
  match o with
  | PostConnectionError => true
  | PostResponse r => negb (status_code r =? 200)
  | PostRaises _ => false
  end.

(** The retry discipline over [n] rounds: at most [n] POSTs, at least one
    when [n] is not zero; every POST but the last ended in a retryable
    outcome; a retryable outcome with rounds left is followed by another
    POST. *)
Definition retry_discipline (n : nat) (outs : list post_outcome) : Prop :=
  (length outs <= n)%nat /\
  ((0 < n)%nat -> (0 < length outs)%nat) /\
  (forall i o, outs !! i = Some o -> (S i < length outs)%nat ->
               retryable o = true) /\
  (forall i o, outs !! i = Some o -> retryable o = true ->
               (S i < n)%nat -> (S i < length outs)%nat).

(** ** The envelope as the specification words it *)

(** The value of a little-endian unsigned integer. *)
Fixpoint u_le (bs : bytes) : Z :=
  match bs with
  | [] => 0
  | b :: bs' => byte_Z b + 256 * u_le bs'
  end.

(** [l[a:b]] for absolute bounds [0 <= a] and [0 <= b]. *)
Definition sub {A} (l : list A) (a b : Z) : list A :=
  take (Z.to_nat (b - a)) (drop (Z.to_nat a) l).

Definition env_len (envelope : bytes) : Z := Z.of_nat (length envelope).
Definition env_iv_len (envelope : bytes) : Z := u_le (sub envelope 0 4).
Definition env_tag_len (envelope : bytes) : Z := u_le (sub envelope 4 8).
Definition env_data_len (envelope : bytes) : Z := u_le (sub envelope 8 12).

(** [iv = envelope[12 : 12+iv_len]] *)
Definition env_iv (envelope : bytes) : bytes :=
  sub envelope 12 (12 + env_iv_len envelope).

(** [ciphertext = envelope[12+iv_len : len(envelope)-tag_len]] *)
Definition env_ciphertext (envelope : bytes) : bytes :=
  sub envelope (12 + env_iv_len envelope)
    (env_len envelope - env_tag_len envelope).

(** [tag = envelope[len(envelope)-tag_len :]] *)
Definition env_tag (envelope : bytes) : bytes :=
  sub envelope (env_len envelope - env_tag_len envelope) (env_len envelope).

(** What the cryptography library checks before it decrypts in GCM mode:
    an IV of at least 8 bytes and a tag of at most 16, the block size. *)
Definition gcm_checks_lengths (P : Platform) : Prop :=
  forall key iv tag data plain,
    aes_gcm_decrypt P key iv tag data = Ok plain ->
    (8 <= length iv)%nat /\ (length tag <= 16)%nat.

(** Two envelopes that agree everywhere but in bytes 8 to 11. *)
Definition differ_only_in_data_len (e1 e2 : bytes) : Prop :=
  length e1 = length e2 /\
  forall i : nat, (i < 8 \/ 12 <= i)%nat -> e1 !! i = e2 !! i.

(** ** The staging name as the specification words it *)

(** [seg] without one trailing [suffix], when it ends in it. *)
Fixpoint strip_suffix (suffix seg : string) : string :=
  match seg with
  | EmptyString => EmptyString
  | String c seg' =>
      if String.eqb seg suffix then EmptyString
      else String c (strip_suffix suffix seg')
  end.

(** ** A platform to run the code on

    Stand-ins for the collaborators, small enough to evaluate.  The cipher
    keeps the argument checks of the cryptography library (GCM: an IV of 8
    to 128 bytes, a tag of exactly 16 bytes) and replaces AES and GHASH by
    XOR; the key generator, the DER encoding and OAEP are placeholders of
    the right shape. *)
Module Demo.

Definition byte_of_Z (z : Z) : byte :=
  match Byte.of_N (Z.to_N (z mod 256)) with
  | Some b => b
  | None => x00
  end.

Definition bytes_of (zs : list Z) : bytes := map byte_of_Z zs.

Definition xor_byte (a b : byte) : byte :=
  byte_of_Z (Z.lxor (byte_Z a) (byte_Z b)).

Fixpoint xor_bytes (a b : bytes) : bytes :=
  match a, b with
  | x :: a', y :: b' => xor_byte x y :: xor_bytes a' b'
  | _, _ => []
  end.

Definition pad16 (bs : bytes) : bytes := take 16 (bs ++ replicate 16 x00).

Definition tag16 (key iv data : bytes) : bytes :=
  xor_bytes (pad16 key) (pad16 (iv ++ data)).

Definition keystream (key : bytes) (n : nat) : bytes :=
  replicate n (nth 0 key x00).

Definition bytes_eqb (a b : bytes) : bool :=
  bool_decide (map byte_Z a = map byte_Z b).

Definition gcm (key iv tag data : bytes) : result bytes :=
  if negb (bool_decide (length key ∈ [16; 24; 32]%nat)) then
    Raise (ValueError "Invalid key size for AES.")
  else if (length iv <? 8)%nat || (128 <? length iv)%nat then
    Raise (ValueError "initialization_vector must be between 8 and 128 bytes")
  else if (length tag <? 16)%nat then
    Raise (ValueError "Authentication tag must be 16 bytes or longer.")
  else if (16 <? length tag)%nat then
    Raise (ValueError "Authentication tag cannot be more than 16 bytes.")
  else if bytes_eqb tag (tag16 key iv data) then
    Ok (xor_bytes data (keystream key (length data)))
  else Raise (LibraryError "cryptography.exceptions.InvalidTag" "").

Definition le_bytes (z : Z) : bytes :=
  bytes_of [z; z / 256; z / 65536; z / 16777216].

(** The encrypting party: header, IV, ciphertext, tag. *)
Definition seal (key iv plain : bytes) : bytes :=
  let ct := xor_bytes plain (keystream key (length plain)) in
  le_bytes (Z.of_nat (length iv)) ++ le_bytes 16
    ++ le_bytes (Z.of_nat (length ct)) ++ iv ++ ct ++ tag16 key iv ct.

Fixpoint index_of (c : ascii) (s : string) (i : Z) : option Z :=
  match s with
  | EmptyString => None
  | String d s' => if Ascii.eqb c d then Some i else index_of c s' (i + 1)
  end.

Definition b64_value (c : ascii) : option Z := index_of c b64_alphabet 0.

Definition is_pad (c : ascii) : bool := Ascii.eqb c "="%char.

(** Base64 with the standard alphabet and full padding. *)
Fixpoint b64decode_str (s : string) : option bytes :=
  match s with
  | EmptyString => Some []
  | String c1 (String c2 (String c3 (String c4 rest))) =>
      match b64_value c1, b64_value c2 with
      | Some v1, Some v2 =>
          let b1 := byte_of_Z (Z.lor (Z.shiftl v1 2) (Z.shiftr v2 4)) in
          if is_pad c3 then
            if is_pad c4 && String.eqb rest "" then Some [b1] else None
          else
            match b64_value c3 with
            | Some v3 =>
                let b2 := byte_of_Z (Z.lor (Z.shiftl v2 4) (Z.shiftr v3 2)) in
                if is_pad c4 then
                  if String.eqb rest "" then Some [b1; b2] else None
                else
                  match b64_value c4, b64decode_str rest with
                  | Some v4, Some tl =>
                      Some (b1 :: b2 :: byte_of_Z (Z.lor (Z.shiftl v3 6) v4) :: tl)
                  | _, _ => None
                  end
            | None => None
            end
      | _, _ => None
      end
  | _ => None
  end.

Definition decode64 (v : pyval) : result bytes :=
  match v with
  | PStr s =>
      match b64decode_str s with
      | Some bs => Ok bs
      | None => Raise (LibraryError "binascii.Error" "Incorrect padding")
      end
  | _ => Raise (TypeError "argument should be a bytes-like object or ASCII string")
  end.

Definition generate (draw : nat) (e bits : Z) : RSAPrivateKey :=
  {| rsa_n := 2 ^ (bits - 1) + 2 * Z.of_nat draw + 1;
     rsa_e := e;
     rsa_d := Z.of_nat draw |}.

Definition der (k : RSAPublicKey) : bytes :=
  bytes_of [pub_e k / 65536; pub_e k / 256; pub_e k; pub_n k / 256; pub_n k].

Definition oaep (k : RSAPrivateKey) (wrapped : bytes) : result bytes :=
  match wrapped with
  | [] => Raise (ValueError "Decryption failed")
  | _ => Ok (map (xor_byte (byte_of_Z (rsa_d k))) wrapped)
  end.

Fixpoint encode_ascii (s : string) : bytes :=
  match s with
  | EmptyString => []
  | String c s' => byte_of_ascii c :: encode_ascii s'
  end.

Definition quote_for (nonce : string) : bytes :=
  x51 :: take 8 (encode_ascii nonce).

(** A platform whose key broker answers the [n]-th POST with [kbs n] and
    whose web server answers a GET by the URL alone. *)
Definition platform (kbs : nat -> post_outcome)
    (web : string -> result Response) : Platform :=
  {| rsa_generate_private_key := generate;
     public_bytes := der;
     ccnp_get_quote := fun nonce => Ok (Some (quote_for nonce));
     requests_post := fun n _ _ => kbs n;
     requests_get := fun _ url => web url;
     b64decode := decode64;
     rsa_oaep_decrypt := oaep;
     aes_gcm_decrypt := gcm;
     open_wb := fun _ => Ok tt;
     file_write := fun _ _ => Ok tt |}.

Definition response (status : Z) (body : list (string * pyval))
    (raw : bytes) : Response :=
  {| status_code := status; json_body := Ok (list_to_map body);
     content := raw |}.

Definition not_found : result Response := Ok (response 404 [] []).

(** The keys of the demonstration: the SWK wraps the content key. *)
Definition swk : bytes := bytes_of (seqZ 101 16).
Definition content_key : bytes := bytes_of (seqZ 1 16).
Definition iv12 : bytes := bytes_of (seqZ 201 12).

(** The broker's answer for the key generated at draw 0, whose
    placeholder OAEP is XOR with 0. *)
Definition transfer_ok : Response :=
  response 200
    [("wrapped_key", PStr (b64encode (seal swk iv12 content_key)));
     ("wrapped_swk", PStr (b64encode swk))] [].

Definition server_error : Response := response 500 [] [].

(** Two connection failures, then the key. *)
Definition kbs_flaky (n : nat) : post_outcome :=
  match n with
  | 0%nat | 1%nat => PostConnectionError
  | _ => PostResponse transfer_ok
  end.

(** An HTTP 500, then the key. *)
Definition kbs_500_then_ok (n : nat) : post_outcome :=
  match n with
  | 0%nat => PostResponse server_error
  | _ => PostResponse transfer_ok
  end.

Definition kbs_down (n : nat) : post_outcome := PostConnectionError.

Definition no_web (url : string) : result Response := not_found.

(** The wrapped content key, and the same envelope with another value in
    its [data_len] field. *)
Definition sealed_key : bytes := seal swk iv12 content_key.
Definition sealed_key_relabelled : bytes :=
  take 8 sealed_key ++ le_bytes 999 ++ drop 12 sealed_key.

(** A URL without a scheme never reaches the network: [requests] raises. *)
Definition kbs_no_schema (n : nat) : post_outcome :=
  PostRaises (LibraryError "requests.exceptions.MissingSchema"
                "Invalid URL '/keys/k1/transfer': No scheme supplied.").

(** A model server: the metadata of model [m1] and the file it names. *)
Definition web (meta : list (string * pyval)) (file_url : string)
    (raw : bytes) (url : string) : result Response :=
  if String.eqb url "http://models/m1" then Ok (response 200 meta [])
  else if String.eqb url file_url then Ok (response 200 [] raw)
  else not_found.

Definition model_plain : bytes := bytes_of [79; 78; 78; 88; 1; 2; 3].
Definition model_sealed : bytes := seal content_key iv12 model_plain.

Definition described : list (string * pyval) :=
  [("name", PStr "detector"); ("version", PStr "1.0");
   ("framework", PStr "onnx"); ("target", PStr "object-detection");
   ("dtype", PStr "fp32"); ("uploaded_date", PInt 1700000000);
   ("accuracy", PInt 97); ("loss", PInt 3);
   ("metrics", POpaque "{'accuracy': 0.97, 'loss': 0.03}" true)].

(** A plain model. *)
Definition meta_plain : list (string * pyval) :=
  [("id", PStr "m1"); ("url", PStr "http://files/yolo.onnx")] ++ described.

(** An encrypted model whose file name has [.enc] inside and at the end. *)
Definition meta_encoder : list (string * pyval) :=
  [("id", PStr "m1"); ("url", PStr "http://files/yolo.encoder.onnx.enc");
   ("encrypted", PBool true); ("kbs", PStr "amber");
   ("kbs_url", PStr "https://kbs"); ("key_id", PStr "k1")] ++ described.

(** An encrypted model behind a broker type other than [amber]. *)
Definition meta_vault : list (string * pyval) :=
  [("id", PStr "m1"); ("url", PStr "http://files/yolo.onnx.enc");
   ("encrypted", PBool true); ("kbs", PStr "vault");
   ("kbs_url", PStr "https://kbs"); ("key_id", PStr "k1")] ++ described.

(** An encrypted model whose metadata name no broker type. *)
Definition meta_no_kbs : list (string * pyval) :=
  [("id", PStr "m1"); ("url", PStr "http://files/yolo.onnx.enc");
   ("encrypted", PBool true);
   ("kbs_url", PStr "https://kbs"); ("key_id", PStr "k1")] ++ described.

Definition model_platform (meta : list (string * pyval)) : Platform :=
  platform kbs_flaky (web meta (py_str (value (list_to_map meta) "url"))
                        model_sealed).

End Demo.



(** ** Serialisation: the iterators of model.py under [dict()] *)

(** What [dict(...)] of the classes of model.py holds: plain values, the
    model binary, and nested dictionaries. *)
#[warnings="-register-all"]
Inductive pyobj :=
  | OVal (v : pyval)
  | OBytes (b : bytes)
  | ODict (d : gmap string pyobj).

(** [dict(pairs)]: a later pair with the same key replaces an earlier one. *)
Definition py_dict (pairs : list (string * pyobj)) : gmap string pyobj :=
  foldl (fun d kv => <[fst kv := snd kv]> d) ∅ pairs.

(** [ModelMetrics.__iter__] *)
Definition ModelMetrics_iter (m : ModelMetrics) : list (string * pyobj) :=
  [("accuracy", OVal (_accuracy m)); ("precision", OVal (_precision m));
   ("recall", OVal (_recall m)); ("f1_score", OVal (_f1_score m));
   ("loss", OVal (_loss m))].

(** [ModelDetails.__iter__] *)
Definition ModelDetails_iter (d : ModelDetails) : list (string * pyobj) :=
  [("name", OVal (_name d)); ("version", OVal (_version d));
   ("framework", OVal (_framework d)); ("target", OVal (_target d));
   ("dtype", OVal (_dtype d))].

(** [ModelInfo.__iter__] *)
Definition ModelInfo_iter (i : ModelInfo) : list (string * pyobj) :=
  [("id", OVal (info_id i));
   ("details", ODict (py_dict (ModelDetails_iter (_details i))));
   ("uploaded_date", OVal (_uploaded_date i));
   ("metrics", ODict (py_dict (ModelMetrics_iter (_metrics i))))].

(** [Model.__iter__], run to its end as [dict()] does: [dict(None)] in
    its first [yield] raises when there is no model info. *)
Definition Model_iter (m : Model) : result (list (string * pyobj)) :=
  match _model_info m with
  | None => Raise (TypeError "'NoneType' object is not iterable")
  | Some info =>
      Ok [("model_info", ODict (py_dict (ModelInfo_iter info)));
          ("model_binary",
           match _model_binary m with
           | None => OVal PNone
           | Some b => OBytes b
           end)]
  end.

(** [dict(model)] *)
Definition Model_dict (m : Model) : result (gmap string pyobj) :=
  on_result py_dict (Model_iter m).

(** [model.model_binary] *)
Definition model_binary := _model_binary.

(** ** More to observe *)

Definition is_file_event (e : event) : bool :=
  match e with EvOpen _ | EvWrite _ _ => true | _ => false end.

Definition is_broker_event (e : event) : bool :=
  match e with
  | EvGenerateKey _ _ | EvGetQuote _ | EvPost _ _ _ => true
  | _ => false
  end.

Definition is_write (e : event) : bool :=
  match e with EvWrite _ _ => true | _ => false end.

Definition is_get (e : event) : bool :=
  match e with EvGet _ => true | _ => false end.

(** The staging path that [get_model_info] derives from the model's URL. *)
Definition staging_path (url : string) : string :=
  "/tmp/" +:+ strip (replace ".enc" "" (last_item (split "/" url) "")).

(** The model object that [get_model_info] leaves behind. *)
Definition loaded (self : Model) (meta_data : gmap string pyval)
    (p : string) : Model :=
  {| _id := _id self; _server := _server self;
     _model_info :=
       Some {| info_id := value meta_data "id";
               _details :=
                 {| _name := value meta_data "name";
                    _version := value meta_data "version";
                    _framework := value meta_data "framework";
                    _target := value meta_data "target";
                    _dtype := value meta_data "dtype" |};
               _uploaded_date := PInt 0;
               _metrics :=
                 {| _accuracy := PInt 0; _precision := PInt 0;
                    _recall := PInt 0; _f1_score := PInt 0;
                    _loss := PInt 0 |} |};
     _model_binary := _model_binary self;
     _path := Some p |}.

(** How a run of the constructor ends for the staging file: no file is
    touched and the run fails; or the file is opened and [write] is not
    called on bytes, because [open] raised or the data is [None]; or
    [write] is called once and raises; or it is called once and the run
    succeeds. *)
Definition file_stage (P : Platform) (r : result Model)
    (files : list event) : Prop :=
  (files = [] /\ exists e, r = Raise e) \/
  (exists p e, files = [EvOpen p] /\ r = Raise e /\
     (open_wb P p = Raise e \/
      e = TypeError "a bytes-like object is required, not 'NoneType'")) \/
  (exists p d e, files = [EvOpen p; EvWrite p d] /\ r = Raise e /\
     file_write P p d = Raise e) \/
  (exists p d m, files = [EvOpen p; EvWrite p d] /\ r = Ok m).

(** The shape of the events of a run of the constructor: at most two
    GETs, then what the key broker client does, then the file stage. *)
Definition run_shape (P : Platform) (r : result Model)
    (evs : list event) : Prop :=
  exists gets broker files,
    evs = gets ++ broker ++ files /\
    Forall (fun e => is_get e = true) gets /\
    (length gets <= 2)%nat /\
    Forall (fun e => is_broker_event e = true) broker /\
    file_stage P r files.

(** [c in s] for a character. *)
Fixpoint has_char (c : ascii) (s : string) : bool :=
  match s with
  | EmptyString => false
  | String d s' => Ascii.eqb c d || has_char c s'
  end.

(** The URL of the key transfer and the body of its request, as [get_key]
    builds them. *)
Definition transfer_url (server_url key_id : pyval) : string :=
  py_str server_url +:+ "/keys/" +:+ py_str key_id +:+ "/transfer".

(** More platforms to run the code on. *)
Module Scenario.

(** [P] with another quote service. *)
Definition with_quote (P : Platform)
    (q : string -> result (option bytes)) : Platform :=
  {| rsa_generate_private_key := rsa_generate_private_key P;
     public_bytes := public_bytes P;
     ccnp_get_quote := q;
     requests_post := requests_post P;
     requests_get := requests_get P;
     b64decode := b64decode P;
     rsa_oaep_decrypt := rsa_oaep_decrypt P;
     aes_gcm_decrypt := aes_gcm_decrypt P;
     open_wb := open_wb P;
     file_write := file_write P |}.

(** No trusted execution environment: the quote service gives [None]. *)
Definition no_tee : Platform :=
  with_quote (Demo.platform Demo.kbs_flaky Demo.no_web) (fun _ => Ok None).

(** A broker that answers 200 without the wrapped SWK. *)
Definition incomplete : Response :=
  Demo.response 200
    [("wrapped_key", PStr (b64encode Demo.sealed_key))] [].

Definition kbs_incomplete (n : nat) : post_outcome := PostResponse incomplete.

(** A broker in trouble: 500, no connection, 503. *)
Definition kbs_troubled (n : nat) : post_outcome :=
  match n with
  | 0%nat => PostResponse Demo.server_error
  | 1%nat => PostConnectionError
  | _ => PostResponse (Demo.response 503 [] [])
  end.

(** A model server that does not know the model. *)
Definition web_404 (url : string) : result Response := Demo.not_found.

(** Metadata without the [url] of the model. *)
Definition meta_no_url : list (string * pyval) :=
  [("id", PStr "m1")] ++ Demo.described.

(** A model server whose file download is forbidden. *)
Definition web_forbidden (url : string) : result Response :=
  if String.eqb url "http://models/m1" then
    Ok (Demo.response 200 Demo.meta_plain [])
  else Ok (Demo.response 403 [] []).

(** An envelope whose [iv_len] runs past its end: header (40, 16, 0) and
    24 more bytes. *)
Definition long_iv : bytes :=
  Demo.bytes_of ([40; 0; 0; 0; 16; 0; 0; 0; 0; 0; 0; 0] ++ seqZ 1 24).

(** A plain model on a machine whose disk is full: the staging file is
    created, and [write] raises [OSError]. *)
Definition no_space : exn :=
  LibraryError "OSError" "[Errno 28] No space left on device".

Definition full_disk : Platform :=
  let P := Demo.platform Demo.kbs_down
             (Demo.web Demo.meta_plain "http://files/yolo.onnx"
                Demo.model_plain) in
  {| rsa_generate_private_key := rsa_generate_private_key P;
     public_bytes := public_bytes P;
     ccnp_get_quote := ccnp_get_quote P;
     requests_post := requests_post P;
     requests_get := requests_get P;
     b64decode := b64decode P;
     rsa_oaep_decrypt := rsa_oaep_decrypt P;
     aes_gcm_decrypt := aes_gcm_decrypt P;
     open_wb := open_wb P;
     file_write := fun _ _ => Raise no_space |}.

End Scenario.

(** * Properties *)

(** ** Slices and header fields *)

Lemma byte_Z_range (b : byte) : 0 <= byte_Z b < 256.
Proof.
  unfold byte_Z. pose proof (Byte.to_N_bounded b). lia.
Qed.

Lemma lor_add (x y k : Z) :
  0 <= x < 2 ^ k -> 0 <= k -> Z.lor x (y * 2 ^ k) = x + y * 2 ^ k.
Proof.
  intros Hx Hk.
  rewrite <- Z.lxor_lor, <- Z.add_nocarry_lxor; auto.
  all: rewrite <- Z.shiftl_mul_pow2 by assumption.
  all: apply Z.bits_inj'; intros n Hn; rewrite Z.land_spec, Z.bits_0.
  all: destruct (Z.lt_ge_cases n k) as [Hlt | Hge].
  all: try (rewrite (Z.shiftl_spec_low y k n Hlt); apply andb_false_r).
  all: destruct (Z.eq_dec x 0) as [-> | Hx0];
    [ now rewrite Z.bits_0
    | rewrite (Z.bits_above_log2 x n); [reflexivity | lia |];
      apply Z.log2_lt_pow2; [lia |];
      apply Z.lt_le_trans with (2 ^ k); [lia | apply Z.pow_le_mono_r; lia] ].
Qed.

Lemma le_u32_value (b0 b1 b2 b3 : byte) :
  le_u32 b0 b1 b2 b3 = u_le [b0; b1; b2; b3].
Proof.
  pose proof (byte_Z_range b0). pose proof (byte_Z_range b1).
  pose proof (byte_Z_range b2). pose proof (byte_Z_range b3).
  unfold le_u32. cbn [u_le].
  rewrite (Z.shiftl_mul_pow2 _ 8), (Z.shiftl_mul_pow2 _ 16),
    (Z.shiftl_mul_pow2 _ 24) by lia.
  pose proof (lor_add (byte_Z b2 * 2 ^ 16) (byte_Z b3) 24) as E1.
  pose proof (lor_add (byte_Z b1 * 2 ^ 8)
                (byte_Z b2 + byte_Z b3 * 256) 16) as E2.
  pose proof (lor_add (byte_Z b0)
                (byte_Z b1 + (byte_Z b2 + byte_Z b3 * 256) * 256) 8) as E3.
  change (2 ^ 8) with 256 in *. change (2 ^ 16) with 65536 in *.
  change (2 ^ 24) with 16777216 in *.
  rewrite E1 by lia.
  replace (byte_Z b2 * 65536 + byte_Z b3 * 16777216)
    with ((byte_Z b2 + byte_Z b3 * 256) * 65536) by lia.
  rewrite E2 by lia.
  replace (byte_Z b1 * 256 + (byte_Z b2 + byte_Z b3 * 256) * 65536)
    with ((byte_Z b1 + (byte_Z b2 + byte_Z b3 * 256) * 256) * 256) by lia.
  rewrite E3 by lia. lia.
Qed.

Lemma u_le_nonneg (bs : bytes) : 0 <= u_le bs.
Proof.
  induction bs as [| b bs IH]; cbn [u_le]; [lia |].
  pose proof (byte_Z_range b). lia.
Qed.

(** A slice with two bounds that are not negative is the absolute one. *)
Lemma py_slice_abs {A} (l : list A) (a b : Z) :
  0 <= a -> 0 <= b -> py_slice l (Some a) (Some b) = sub l a b.
Proof.
  intros Ha Hb. unfold py_slice, sub, py_index.
  destruct (a <? 0) eqn:Ea; [lia |]. destruct (b <? 0) eqn:Eb; [lia |].
  set (n := Z.of_nat (length l)).
  destruct (Z.le_gt_cases n a) as [Hna | Hna].
  - rewrite !drop_ge by lia. now rewrite !take_nil.
  - rewrite (Z.min_l a n) by lia.
    destruct (Z.le_gt_cases n b) as [Hnb | Hnb].
    + rewrite (Z.min_r b n) by lia.
      rewrite !take_ge; auto; rewrite length_drop; lia.
    + now rewrite (Z.min_l b n) by lia.
Qed.

(** The prefix [l[:k]]. *)
Lemma py_slice_prefix {A} (l : list A) (k : Z) :
  0 <= k -> py_slice l None (Some k) = take (Z.to_nat k) l.
Proof.
  intros Hk. unfold py_slice, py_index.
  destruct (k <? 0) eqn:Ek; [lia |]. rewrite drop_0, Z.sub_0_r.
  destruct (Z.le_gt_cases (Z.of_nat (length l)) k).
  - rewrite Z.min_r by lia. rewrite !take_ge; auto; lia.
  - now rewrite Z.min_l by lia.
Qed.

(** With a tag length above zero, [l[a:-t]] ends [t] before the end. *)
Lemma py_slice_to_neg {A} (l : list A) (a t : Z) :
  0 <= a -> 0 < t ->
  py_slice l (Some a) (Some (- t)) = sub l a (Z.of_nat (length l) - t).
Proof.
  intros Ha Ht. unfold py_slice, sub, py_index.
  destruct (a <? 0) eqn:Ea; [lia |]. destruct (- t <? 0) eqn:Et; [| lia].
  set (n := Z.of_nat (length l)).
  destruct (Z.le_gt_cases n a) as [Hna | Hna].
  - rewrite !drop_ge by lia. now rewrite !take_nil.
  - rewrite (Z.min_l a n) by lia.
    replace (- t + n) with (n - t) by lia.
    destruct (Z.le_gt_cases t n).
    + now rewrite Z.max_r by lia.
    + rewrite Z.max_l by lia.
      replace (Z.to_nat (0 - a)) with 0%nat by lia.
      now replace (Z.to_nat (n - t - a)) with 0%nat by lia.
Qed.

(** With a tag length above zero, [l[-t:]] is the last [t] items. *)
Lemma py_slice_from_neg {A} (l : list A) (t : Z) :
  0 < t ->
  py_slice l (Some (- t)) None
  = sub l (Z.of_nat (length l) - t) (Z.of_nat (length l)).
Proof.
  intros Ht. unfold py_slice, sub, py_index.
  destruct (- t <? 0) eqn:Et; [| lia].
  set (n := Z.of_nat (length l)).
  replace (- t + n) with (n - t) by lia.
  destruct (Z.le_gt_cases t n).
  - rewrite Z.max_r by lia. now replace (n - (n - t)) with t by lia.
  - rewrite Z.max_l by lia.
    replace (Z.to_nat (n - t)) with 0%nat by lia.
    rewrite !drop_0, !take_ge; auto; lia.
Qed.

(** A tag length of zero: [l[a:-0]] is empty and [l[-0:]] is all of [l]. *)
Lemma py_slice_to_zero {A} (l : list A) (a : Z) :
  0 <= a -> py_slice l (Some a) (Some (- 0)) = [].
Proof.
  intros Ha. unfold py_slice, py_index.
  change (- 0) with 0. change (0 <? 0) with false. cbv iota.
  destruct (a <? 0) eqn:Ea; [lia |].
  rewrite (Z.min_l 0) by lia.
  replace (Z.to_nat (0 - _)) with 0%nat by lia. apply take_0.
Qed.

Lemma py_slice_from_zero {A} (l : list A) :
  py_slice l (Some (- 0)) None = l.
Proof.
  unfold py_slice, py_index.
  change (- 0) with 0. change (0 <? 0) with false. cbv iota.
  rewrite Z.min_l by lia. rewrite drop_0, take_ge; auto; lia.
Qed.

(** ** [decrypt_data] *)

Section DecryptData.
Variable P : Platform.

Lemma unpack_header (envelope : bytes) :
  (12 <= length envelope)%nat ->
  struct_unpack_3I (take 12 envelope)
  = Ok (env_iv_len envelope, env_tag_len envelope, env_data_len envelope).
Proof.
  intros Hlen.
  do 12 (destruct envelope as [| ? envelope]; [cbn in Hlen; lia |]).
  cbn [take firstn struct_unpack_3I]. rewrite !le_u32_value. reflexivity.
Qed.

Lemma decrypt_data_short (envelope key : bytes) :
  (length envelope < 12)%nat ->
  decrypt_data P (Some envelope) (Some key)
  = Raise (StructError "unpack requires a buffer of 12 bytes").
Proof.
  intros Hlen. unfold decrypt_data.
  rewrite py_slice_prefix by (unfold header_len; lia).
  change (Z.to_nat header_len) with 12%nat.
  rewrite take_ge by lia.
  do 12 (destruct envelope as [| ? envelope]; [reflexivity |]).
  cbn in Hlen. lia.
Qed.

(** The call of the cipher that [decrypt_data] ends in. *)
Lemma decrypt_data_call (envelope key : bytes) :
  (12 <= length envelope)%nat ->
  decrypt_data P (Some envelope) (Some key)
  = aes_gcm_decrypt P key (env_iv envelope)
      (py_slice envelope (Some (- env_tag_len envelope)) None)
      (py_slice envelope (Some (env_iv_len envelope + 12))
         (Some (- env_tag_len envelope))).
Proof.
  intros Hlen. unfold decrypt_data.
  rewrite py_slice_prefix by (unfold header_len; lia).
  change (Z.to_nat header_len) with 12%nat.
  rewrite unpack_header by assumption. unfold header_len.
  pose proof (u_le_nonneg (sub envelope 0 4)) as Hiv.
  fold (env_iv_len envelope) in Hiv.
  rewrite py_slice_abs by lia. unfold env_iv.
  now rewrite (Z.add_comm 12).
Qed.

Lemma env_tag_len_nonneg (envelope : bytes) : 0 <= env_tag_len envelope.
Proof. apply u_le_nonneg. Qed.

Lemma env_iv_len_nonneg (envelope : bytes) : 0 <= env_iv_len envelope.
Proof. apply u_le_nonneg. Qed.

(** With a tag length above zero the three slices are the ones of the
    envelope format, whatever the cipher then says. *)
Lemma decrypt_data_tagged (envelope key : bytes) :
  (12 <= length envelope)%nat -> 0 < env_tag_len envelope ->
  decrypt_data P (Some envelope) (Some key)
  = aes_gcm_decrypt P key (env_iv envelope) (env_tag envelope)
      (env_ciphertext envelope).
Proof.
  intros Hlen Htag. rewrite decrypt_data_call by assumption.
  pose proof (env_iv_len_nonneg envelope).
  rewrite py_slice_from_neg, py_slice_to_neg by lia.
  unfold env_tag, env_ciphertext, env_len. now rewrite (Z.add_comm 12).
Qed.

(** With a tag length of zero the tag is the whole envelope and the
    data is empty. *)
Lemma decrypt_data_untagged (envelope key : bytes) :
  (12 <= length envelope)%nat -> env_tag_len envelope = 0 ->
  decrypt_data P (Some envelope) (Some key)
  = aes_gcm_decrypt P key (env_iv envelope) envelope [].
Proof.
  intros Hlen Htag. rewrite decrypt_data_call by assumption.
  pose proof (env_iv_len_nonneg envelope).
  rewrite Htag, py_slice_from_zero, py_slice_to_zero by lia. reflexivity.
Qed.

Lemma length_env_iv (envelope : bytes) :
  (length (env_iv envelope) <= length envelope - 12)%nat.
Proof.
  unfold env_iv, sub. rewrite length_take, length_drop. lia.
Qed.

(** C3. Every envelope and key that [decrypt_data] accepts, that is,
    decrypts without raising, is read as the format says: the first 12
    bytes are the little-endian unsigned 32-bit integers [iv_len],
    [tag_len] and [data_len]; the IV is [envelope[12 : 12+iv_len]], the
    ciphertext [envelope[12+iv_len : len(envelope)-tag_len]], the tag
    [envelope[len(envelope)-tag_len :]]; and the result is the AES-GCM
    decryption of that ciphertext under the key with that IV and tag.
    The cipher is any one that checks the lengths of IV and tag as the
    cryptography library does. *)
Theorem decrypt_data_reads_envelope (envelope key plain : bytes) :
  gcm_checks_lengths P ->
  decrypt_data P (Some envelope) (Some key) = Ok plain ->
  (12 <= length envelope)%nat /\
  struct_unpack_3I (sub envelope 0 12)
  = Ok (env_iv_len envelope, env_tag_len envelope, env_data_len envelope) /\
  aes_gcm_decrypt P key (env_iv envelope) (env_tag envelope)
    (env_ciphertext envelope) = Ok plain.
Proof.
  intros Hgcm Hok.
  destruct (Nat.lt_ge_cases (length envelope) 12) as [Hshort | Hlen].
  { rewrite decrypt_data_short in Hok by assumption. discriminate. }
  split; [assumption |]. split; [now apply unpack_header |].
  pose proof (env_tag_len_nonneg envelope) as Hnn.
  destruct (Z.eq_dec (env_tag_len envelope) 0) as [Hzero | Hpos].
  - rewrite decrypt_data_untagged in Hok by assumption.
    apply Hgcm in Hok as [Hiv Htag].
    pose proof (length_env_iv envelope). lia.
  - rewrite decrypt_data_tagged in Hok by (assumption || lia). exact Hok.
Qed.

End DecryptData.

Lemma demo_gcm_checks_lengths kbs web :
  gcm_checks_lengths (Demo.platform kbs web).
Proof.
  intros key iv tag data plain. cbn [aes_gcm_decrypt Demo.platform].
  unfold Demo.gcm.
  destruct (negb _); [discriminate |].
  destruct (Nat.ltb_spec (length iv) 8); [discriminate |].
  destruct (Nat.ltb_spec 128 (length iv)); [discriminate |].
  cbn [orb].
  destruct (Nat.ltb_spec (length tag) 16); [discriminate |].
  destruct (Nat.ltb_spec 16 (length tag)); [discriminate |].
  intros _. lia.
Qed.

Lemma decrypt_data_reads_envelope_witness :
  let P := Demo.platform Demo.kbs_flaky Demo.no_web in
  let envelope := Demo.seal Demo.swk Demo.iv12 Demo.content_key in
  (12 <= length envelope)%nat /\
  struct_unpack_3I (sub envelope 0 12)
  = Ok (env_iv_len envelope, env_tag_len envelope, env_data_len envelope) /\
  aes_gcm_decrypt P Demo.swk (env_iv envelope) (env_tag envelope)
    (env_ciphertext envelope) = Ok Demo.content_key.
Proof.
  intros P envelope.
  apply (decrypt_data_reads_envelope P envelope Demo.swk Demo.content_key).
  - apply demo_gcm_checks_lengths.
  - vm_compute. reflexivity.
Defined.

(** ** The [data_len] field *)

Section DataLen.
Variable P : Platform.
Variables e1 e2 : bytes.
Hypothesis Hdiff : differ_only_in_data_len e1 e2.

Lemma differ_take8 : take 8 e1 = take 8 e2.
Proof.
  destruct Hdiff as [_ Hat]. apply list_eq. intros i.
  rewrite !lookup_take. destruct (decide (i < 8)%nat); [| reflexivity].
  apply Hat. now left.
Qed.

Lemma differ_drop (k : nat) : (12 <= k)%nat -> drop k e1 = drop k e2.
Proof.
  intros Hk. destruct Hdiff as [_ Hat]. apply list_eq. intros i.
  rewrite !lookup_drop. apply Hat. right. lia.
Qed.

Lemma differ_iv_len : env_iv_len e1 = env_iv_len e2.
Proof.
  unfold env_iv_len, sub. cbn [Z.sub Z.to_nat Z.opp Z.add Pos.to_nat].
  change (Z.to_nat (4 - 0)) with (4 `min` 8)%nat.
  change (Z.to_nat 0) with 0%nat.
  now rewrite !drop_0, <- !take_take, differ_take8.
Qed.

Lemma differ_tag_len : env_tag_len e1 = env_tag_len e2.
Proof.
  unfold env_tag_len, sub.
  change (Z.to_nat (8 - 4)) with 4%nat. change (Z.to_nat 4) with 4%nat.
  rewrite !take_drop_commute. change (4 + 4)%nat with 8%nat.
  now rewrite differ_take8.
Qed.

Lemma differ_len : env_len e1 = env_len e2.
Proof. unfold env_len. destruct Hdiff as [Hlen _]. now rewrite Hlen. Qed.

Lemma differ_sub (a b : Z) : 12 <= a -> sub e1 a b = sub e2 a b.
Proof. intros Ha. unfold sub. rewrite differ_drop by lia. reflexivity. Qed.

Lemma differ_iv : env_iv e1 = env_iv e2.
Proof. unfold env_iv. rewrite differ_iv_len. apply differ_sub. lia. Qed.

Lemma differ_ciphertext : env_ciphertext e1 = env_ciphertext e2.
Proof.
  unfold env_ciphertext. rewrite differ_iv_len, differ_tag_len, differ_len.
  apply differ_sub. pose proof (env_iv_len_nonneg e2). lia.
Qed.

Lemma differ_iv_slice :
  py_slice e1 (Some header_len) (Some (env_iv_len e1 + header_len))
  = py_slice e2 (Some header_len) (Some (env_iv_len e1 + header_len)).
Proof.
  pose proof (env_iv_len_nonneg e1). unfold header_len.
  rewrite !py_slice_abs by lia. apply differ_sub. lia.
Qed.

Lemma differ_data_slice :
  py_slice e1 (Some (env_iv_len e1 + header_len)) (Some (- env_tag_len e1))
  = py_slice e2 (Some (env_iv_len e1 + header_len)) (Some (- env_tag_len e1)).
Proof.
  pose proof (env_iv_len_nonneg e1). pose proof (env_tag_len_nonneg e1).
  unfold header_len.
  destruct (Z.eq_dec (env_tag_len e1) 0) as [-> | Hpos].
  - now rewrite !py_slice_to_zero by lia.
  - rewrite !py_slice_to_neg by lia.
    destruct Hdiff as [<- _]. apply differ_sub. lia.
Qed.

(** X22. Two envelopes of equal length that differ only in the
    [data_len] field (bytes 8 to 11) have the same [iv_len] and [tag_len],
    and [decrypt_data] cuts the same IV and the same ciphertext out of
    both, so the ciphertext boundary does not depend on [data_len]; and
    [decrypt_data] gives the same result for both under the same key when
    the tag lies behind the header, [0 < tag_len <= len - 12] (or when
    they are shorter than the header and rejected).  Nothing is said of
    the other envelopes: there [encrypted_data[-tag_len:]] runs over
    bytes 8 to 11, and the two calls hand different tags to the
    cipher. *)
Theorem decrypt_data_ignores_data_len (key : bytes) :
  let iv_len := env_iv_len e1 in
  let tag_len := env_tag_len e1 in
  env_iv_len e2 = iv_len /\
  env_tag_len e2 = tag_len /\
  py_slice e1 (Some header_len) (Some (iv_len + header_len))
  = py_slice e2 (Some header_len) (Some (iv_len + header_len)) /\
  py_slice e1 (Some (iv_len + header_len)) (Some (- tag_len))
  = py_slice e2 (Some (iv_len + header_len)) (Some (- tag_len)) /\
  ((length e1 < 12)%nat \/ 0 < tag_len <= env_len e1 - 12 ->
   decrypt_data P (Some e1) (Some key) = decrypt_data P (Some e2) (Some key)).
Proof.
  cbv zeta.
  split; [symmetry; apply differ_iv_len |].
  split; [symmetry; apply differ_tag_len |].
  split; [apply differ_iv_slice |]. split; [apply differ_data_slice |].
  assert (Hlen : length e1 = length e2) by apply Hdiff.
  intros [Hshort | Htag].
  - rewrite !decrypt_data_short by lia. reflexivity.
  - assert (12 <= length e1)%nat by (unfold env_len in Htag; lia).
    rewrite !decrypt_data_tagged
      by (try rewrite <- differ_tag_len; lia).
    assert (Htags : env_tag e1 = env_tag e2).
    { unfold env_tag. rewrite <- differ_tag_len, <- differ_len.
      apply differ_sub. lia. }
    now rewrite differ_iv, differ_ciphertext, Htags.
Qed.

End DataLen.

(** ** The broker exchange of [get_key] *)

Section Exchange.
Variable P : Platform.

Lemma retryable_200 (r : Response) :
  (status_code r =? 200) = true -> retryable (PostResponse r) = false.
Proof. intros H. cbn. now rewrite H. Qed.

Lemma retry_discipline_nil : retry_discipline 0 [].
Proof.
  repeat split; cbn; try lia; intros i o Hi; discriminate Hi.
Qed.

Lemma retry_discipline_last (n : nat) (o : post_outcome) :
  retryable o = false -> retry_discipline (S n) [o].
Proof.
  intros Hno. repeat split; cbn; try lia.
  intros [| i] o' Hi Hr Hlt; cbn in Hi; [| discriminate Hi].
  injection Hi as <-. congruence.
Qed.

Lemma retry_discipline_cons (n : nat) (o : post_outcome)
    (outs : list post_outcome) :
  retryable o = true -> retry_discipline n outs ->
  retry_discipline (S n) (o :: outs).
Proof.
  intros Hyes (Hlen & Hpos & Hb & Hc). repeat split; cbn [length]; try lia.
  - intros [| i] o' Hi Hlt; cbn in Hi.
    + now injection Hi as <-.
    + apply (Hb i o' Hi). lia.
  - intros [| i] o' Hi Hr Hlt; cbn in Hi.
    + assert (0 < length outs)%nat by (apply Hpos; lia). lia.
    + assert (S i < length outs)%nat by (apply (Hc i o' Hi Hr); lia). lia.
Qed.

(** One round of the loop. *)
Lemma post_retry_S (api : string) (req : TransferRequest) (n : nat)
    (resp : option Response) (w : World) :
  post_retry P api req (S n) resp w
  = let o := requests_post P (posts_made w) api req in
    let w1 := log (EvPost api req o) (count_post w) in
    match o with
    | PostResponse r =>
        if status_code r =? 200 then (Ok (Some r), w1)
        else post_retry P api req n (Some r) w1
    | PostConnectionError => post_retry P api req n resp w1
    | PostRaises e => (Raise e, w1)
    end.
Proof.
  cbn [post_retry]. unfold bind, post. cbv zeta.
  destruct (requests_post P (posts_made w) api req) as [r | | e];
    try reflexivity.
  now destruct (status_code r =? 200).
Qed.

(** What the loop does in [n] rounds: it adds POSTs and nothing else to
    the trace, under the retry discipline, and draws no key. *)
Lemma post_retry_run (api : string) (req : TransferRequest) (n : nat) :
  forall (resp : option Response) (w : World),
  exists outs : list post_outcome,
    trace (snd (post_retry P api req n resp w))
    = trace w ++ map (EvPost api req) outs /\
    rng_draws (snd (post_retry P api req n resp w)) = rng_draws w /\
    retry_discipline n outs.
Proof.
  induction n as [| n' IH]; intros resp w.
  - exists []. cbn. rewrite app_nil_r. auto using retry_discipline_nil.
  - rewrite post_retry_S.
    set (o := requests_post P (posts_made w) api req).
    set (w1 := log (EvPost api req o) (count_post w)). cbv zeta.
    assert (Hlast : forall x : result (option Response),
      retryable o = false ->
      exists outs : list post_outcome,
        trace (snd (x, w1)) = trace w ++ map (EvPost api req) outs /\
        rng_draws (snd (x, w1)) = rng_draws w /\
        retry_discipline (S n') outs).
    { intros x Hno. exists [o]. auto using retry_discipline_last. }
    assert (Hmore : forall r : option Response,
      retryable o = true ->
      exists outs : list post_outcome,
        trace (snd (post_retry P api req n' r w1))
        = trace w ++ map (EvPost api req) outs /\
        rng_draws (snd (post_retry P api req n' r w1)) = rng_draws w /\
        retry_discipline (S n') outs).
    { intros r Hyes. destruct (IH r w1) as (outs & Htr & Hrng & Hd).
      exists (o :: outs). rewrite Htr, Hrng. subst w1. cbn.
      rewrite <- app_assoc. auto using retry_discipline_cons. }
    destruct o as [r | | e] eqn:Eo.
    + destruct (status_code r =? 200) eqn:Es.
      * apply (Hlast (Ok (Some r))). now apply retryable_200.
      * apply Hmore. cbn. now rewrite Es.
    + apply Hmore. reflexivity.
    + apply (Hlast (Raise e)). reflexivity.
Qed.

(** [get_key] past its two argument checks, written out. *)
Lemma get_key_unfold (su kid : pyval) (w : World) :
  is_None su = false -> is_None kid = false ->
  get_key P su kid w
  = let k := rsa_generate_private_key P (rng_draws w) 65537 3072 in
    let nonce := b64encode (public_bytes P (public_key k)) in
    let w2 :=
      log (EvGetQuote nonce) (log (EvGenerateKey 65537 3072) (draw w)) in
    match ccnp_get_quote P nonce with
    | Raise e => (Raise e, w2)
    | Ok None => (Raise (RuntimeError "Get TDX Quote failed"), w2)
    | Ok (Some tdquote) =>
        let req := {| quote := b64encode tdquote; user_data := nonce |} in
        let api := py_str su +:+ "/keys/" +:+ py_str kid +:+ "/transfer" in
        match post_retry P api req 3 None w2 with
        | (Raise e, w3) => (Raise e, w3)
        | (Ok None, w3) =>
            (Raise (RuntimeError "Unexpected response from Amber KBS"), w3)
        | (Ok (Some resp), w3) =>
            if negb (status_code resp =? 200)
            then (Raise (RuntimeError "Unexpected response from Amber KBS"), w3)
            else (unwrap_key P k resp, w3)
        end
    end.
Proof.
  intros Hsu Hkid. unfold get_key. rewrite Hsu, Hkid.
  unfold bind, generate_private_key, get_quote. cbv zeta.
  destruct (ccnp_get_quote P _) as [[tdquote |] | e]; try reflexivity.
  destruct (post_retry P _ _ 3 None _) as [[[resp |] | e] w3]; try reflexivity.
  now destruct (negb (status_code resp =? 200)).
Qed.

(** What a call of [get_key] does to the world: nothing when an argument
    is [None]; otherwise one key generation with the fixed parameters, one
    quote request for the new public key, then the POSTs of the loop. *)
Lemma get_key_run (su kid : pyval) (w : World) :
  let k := rsa_generate_private_key P (rng_draws w) 65537 3072 in
  let nonce := b64encode (public_bytes P (public_key k)) in
  (is_None su || is_None kid = true /\
   exists msg, get_key P su kid w = (Raise (ValueError msg), w)) \/
  (is_None su || is_None kid = false /\
   exists api req outs,
     trace (snd (get_key P su kid w))
     = trace w ++ EvGenerateKey 65537 3072 :: EvGetQuote nonce
         :: map (EvPost api req) outs /\
     user_data req = nonce /\
     rng_draws (snd (get_key P su kid w)) = S (rng_draws w) /\
     (outs = [] \/ retry_discipline 3 outs)).
Proof.
  cbv zeta.
  destruct (is_None su) eqn:Hsu;
    [left; split; [reflexivity |]; unfold get_key; rewrite Hsu; eauto |].
  destruct (is_None kid) eqn:Hkid;
    [left; split; [reflexivity |]; unfold get_key; rewrite Hsu, Hkid; eauto |].
  right. split; [reflexivity |].
  rewrite get_key_unfold by assumption. cbv zeta.
  set (k := rsa_generate_private_key P (rng_draws w) 65537 3072).
  set (nonce := b64encode (public_bytes P (public_key k))).
  set (w2 := log (EvGetQuote nonce) (log (EvGenerateKey 65537 3072) (draw w))).
  assert (Htr2 : trace w2 = trace w ++ [EvGenerateKey 65537 3072; EvGetQuote nonce])
    by (subst w2; cbn; now rewrite <- app_assoc).
  assert (Hquiet : forall x : result bytes, exists api req outs,
    trace (snd (x, w2))
    = trace w ++ EvGenerateKey 65537 3072 :: EvGetQuote nonce
        :: map (EvPost api req) outs /\
    user_data req = nonce /\
    rng_draws (snd (x, w2)) = S (rng_draws w) /\
    (outs = [] \/ retry_discipline 3 outs)).
  { intros x. exists "", {| quote := ""; user_data := nonce |}, [].
    cbn [snd map]. rewrite Htr2. auto. }
  destruct (ccnp_get_quote P nonce) as [[tdquote |] | e];
    [| apply Hquiet | apply Hquiet].
  set (req := {| quote := b64encode tdquote; user_data := nonce |}).
  set (api := py_str su +:+ "/keys/" +:+ py_str kid +:+ "/transfer").
  destruct (post_retry_run api req 3 None w2) as (outs & Htr & Hrng & Hd).
  exists api, req, outs.
  assert (Hw3 : forall x : result bytes,
    trace (snd (x, snd (post_retry P api req 3 None w2)))
    = trace w ++ EvGenerateKey 65537 3072 :: EvGetQuote nonce
        :: map (EvPost api req) outs /\
    user_data req = nonce /\
    rng_draws (snd (x, snd (post_retry P api req 3 None w2)))
    = S (rng_draws w) /\
    (outs = [] \/ retry_discipline 3 outs)).
  { intros x. cbn [snd]. rewrite Htr, Htr2, Hrng, <- app_assoc. auto. }
  destruct (post_retry P api req 3 None w2) as [[[resp |] | e] w3];
    try apply Hw3.
  destruct (negb (status_code resp =? 200)); apply Hw3.
Qed.

(** The events of a call, from the shape of its final trace. *)
Lemma events_of_app {A} (m : M A) (w : World) (evs : list event) :
  trace (snd (m w)) = trace w ++ evs -> events_of m w = evs.
Proof.
  intros H. unfold events_of. rewrite H. apply drop_app_length.
Qed.

Lemma posts_of_map (api : string) (req : TransferRequest)
    (outs : list post_outcome) :
  posts_of (map (EvPost api req) outs) = outs.
Proof. induction outs as [| o outs IH]; cbn; congruence. Qed.

Lemma events_of_same {A} (m : M A) (w : World) (r : result A) :
  m w = (r, w) -> events_of m w = [].
Proof.
  intros H. unfold events_of. rewrite H. apply drop_all.
Qed.

(** The events of [get_key], in the two cases of [get_key_run]. *)
Lemma get_key_events (su kid : pyval) (w : World) :
  let k := rsa_generate_private_key P (rng_draws w) 65537 3072 in
  let nonce := b64encode (public_bytes P (public_key k)) in
  (is_None su || is_None kid = true /\
   events_of (get_key P su kid) w = []) \/
  (is_None su || is_None kid = false /\
   exists api req outs,
     events_of (get_key P su kid) w
     = EvGenerateKey 65537 3072 :: EvGetQuote nonce
         :: map (EvPost api req) outs /\
     user_data req = nonce /\
     rng_draws (snd (get_key P su kid w)) = S (rng_draws w) /\
     (outs = [] \/ retry_discipline 3 outs)).
Proof.
  intros k nonce.
  destruct (get_key_run su kid w) as [(Hn & msg & H) | (Hn & api & req & outs & H & Hr)].
  - left. split; [assumption |]. now apply events_of_same with (r := Raise (ValueError msg)).
  - right. split; [assumption |]. exists api, req, outs.
    split; [now apply events_of_app | exact Hr].
Qed.

Lemma not_None (v : pyval) : v <> PNone -> is_None v = false.
Proof. destruct v; intros H; try reflexivity; congruence. Qed.

(** C1. In every call of [get_key] the key pair is generated by that call,
    with public exponent 65537 and a modulus of 3072 bits, which is at
    least 3072; and the binding data of every evidence request, the
    [nonce] of [Quote.get_quote] that is also sent as [user_data], is the
    base64 encoding of the DER SubjectPublicKeyInfo of the public half of
    that key.  The key is the one drawn by this call: the draw is used up,
    and the call generates one key and asks for one quote, in that order,
    as soon as both arguments are present. *)
Theorem get_key_binds_fresh_key (su kid : pyval) (w : World) :
  let k := rsa_generate_private_key P (rng_draws w) 65537 3072 in
  let nonce := b64encode (public_bytes P (public_key k)) in
  let evs := events_of (get_key P su kid) w in
  (forall n, In (EvGetQuote n) evs -> n = nonce) /\
  (forall e bits, In (EvGenerateKey e bits) evs -> e = 65537 /\ 3072 <= bits) /\
  (forall url req o, In (EvPost url req o) evs -> user_data req = nonce) /\
  (su <> PNone -> kid <> PNone ->
   exists rest,
     evs = EvGenerateKey 65537 3072 :: EvGetQuote nonce :: rest /\
     (forall e, In e rest -> is_generate_key e = false /\ is_get_quote e = false) /\
     rng_draws (snd (get_key P su kid w)) = S (rng_draws w)).
Proof.
  intros k nonce evs. subst evs.
  destruct (get_key_events su kid w)
    as [(Hn & ->) | (Hn & api & req & outs & -> & Hud & Hrng & _)].
  - split; [| split; [| split]]; try (intros; contradiction).
    intros Hsu Hkid. apply not_None in Hsu, Hkid.
    rewrite Hsu, Hkid in Hn. discriminate.
  - fold k in Hud. fold nonce in Hud.
    assert (Hposts : forall e, In e (map (EvPost api req) outs) ->
              exists o, e = EvPost api req o).
    { intros e He. apply in_map_iff in He as (o & <- & _). eauto. }
    split; [| split; [| split]].
    + intros n [Hgen | [Hq | Hin]];
        [discriminate | now injection Hq as <- |].
      apply Hposts in Hin as [o Ho]. discriminate.
    + intros e bits [Hgen | [Hq | Hin]];
        [injection Hgen; lia | discriminate |].
      apply Hposts in Hin as [o Ho]. discriminate.
    + intros url req' o [Hgen | [Hq | Hin]]; [discriminate | discriminate |].
      apply Hposts in Hin as [o' Ho]. now injection Ho as _ -> _.
    + intros _ _. exists (map (EvPost api req) outs).
      split; [reflexivity |]. split; [| assumption].
      intros e He. apply Hposts in He as [o ->]. now split.
Qed.

(** C6, amended. When [server_url] or [key_id] is absent, that is [None],
    [get_key] fails with a [ValueError] and leaves the world as it was: no
    key is generated, no quote is asked for, nothing is sent. *)
Theorem get_key_rejects_None (su kid : pyval) (w : World) :
  su = PNone \/ kid = PNone ->
  (exists msg, get_key P su kid w = (Raise (ValueError msg), w)) /\
  events_of (get_key P su kid) w = [].
Proof.
  intros Habsent.
  assert (Hn : is_None su || is_None kid = true).
  { destruct Habsent as [-> | ->]; [reflexivity | apply orb_true_r]. }
  destruct (get_key_run su kid w) as [(_ & msg & H) | (Hf & _)];
    [| congruence].
  split; [eauto |]. now apply events_of_same with (r := Raise (ValueError msg)).
Qed.

(** The POSTs of a call obey the retry discipline of three rounds, or
    there are none. *)
Lemma get_key_posts (su kid : pyval) (w : World) :
  let outs := posts_of (events_of (get_key P su kid) w) in
  outs = [] \/ retry_discipline 3 outs.
Proof.
  cbv zeta.
  destruct (get_key_events su kid w)
    as [(_ & ->) | (_ & api & req & outs & -> & _ & _ & Hd)].
  - now left.
  - cbn [posts_of]. now rewrite posts_of_map.
Qed.

(** C2, amended. In the broker exchange of [get_key] a POST is repeated
    only after a connection failure or after a response whose status is
    not 200: every POST that is followed by another one ended in one of
    the two.  A response with status 200 ends the loop at once, and so does
    any other exception of the POST.  A connection failure or a response
    with another status is followed by a new POST as long as fewer than
    three have been made. *)
Theorem get_key_retry_policy (su kid : pyval) (w : World) :
  let outs := posts_of (events_of (get_key P su kid) w) in
  (forall i o, outs !! i = Some o -> (S i < length outs)%nat ->
     o = PostConnectionError \/
     exists r, o = PostResponse r /\ status_code r <> 200) /\
  (forall i r, outs !! i = Some (PostResponse r) -> status_code r = 200 ->
     length outs = S i) /\
  (forall i e, outs !! i = Some (PostRaises e) -> length outs = S i) /\
  (forall i o, outs !! i = Some o -> retryable o = true -> (S i < 3)%nat ->
     (S i < length outs)%nat).
Proof.
  intros outs.
  assert (Hlt : forall i (o : post_outcome), outs !! i = Some o ->
            (i < length outs)%nat) by (intros i o; apply lookup_lt_Some).
  destruct (get_key_posts su kid w) as [Hnil | (Hlen & Hpos & Hb & Hc)];
    fold outs in Hnil || fold outs in Hlen, Hpos, Hb, Hc.
  - rewrite Hnil. split; [| split; [| split]]; intros; discriminate.
  - split; [| split; [| split]].
    + intros i o Hi Hnext. specialize (Hb i o Hi Hnext).
      destruct o as [r | | e]; [right | now left | discriminate].
      exists r. split; [reflexivity |]. cbn in Hb.
      apply negb_true_iff, Z.eqb_neq in Hb. exact Hb.
    + intros i r Hi H200.
      destruct (Nat.lt_ge_cases (S i) (length outs)) as [Hnext | Hge].
      * specialize (Hb i _ Hi Hnext). cbn in Hb. rewrite H200 in Hb.
        discriminate.
      * specialize (Hlt i _ Hi). lia.
    + intros i e Hi.
      destruct (Nat.lt_ge_cases (S i) (length outs)) as [Hnext | Hge].
      * specialize (Hb i _ Hi Hnext). discriminate.
      * specialize (Hlt i _ Hi). lia.
    + exact Hc.
Qed.

(** Three rounds that all end in a connection failure. *)
Lemma post_retry_all_fail (api : string) (req : TransferRequest) (w : World) :
  (forall i url rq, (i < 3)%nat ->
     requests_post P (i + posts_made w) url rq = PostConnectionError) ->
  post_retry P api req 3 None w
  = (Ok None,
     log (EvPost api req PostConnectionError)
       (count_post
          (log (EvPost api req PostConnectionError)
             (count_post
                (log (EvPost api req PostConnectionError) (count_post w)))))).
Proof.
  intros Hfail.
  pose proof (Hfail 0%nat api req ltac:(lia)) as H0.
  pose proof (Hfail 1%nat api req ltac:(lia)) as H1.
  pose proof (Hfail 2%nat api req ltac:(lia)) as H2.
  cbn [Nat.add] in H0, H1, H2.
  rewrite post_retry_S. cbv zeta. rewrite H0.
  rewrite post_retry_S. cbv zeta. cbn [posts_made log count_post]. rewrite H1.
  rewrite post_retry_S. cbv zeta. cbn [posts_made log count_post]. rewrite H2.
  reflexivity.
Qed.

(** Two connection failures, then a response with status 200. *)
Lemma post_retry_third_time (api : string) (req : TransferRequest)
    (w : World) (r : Response) :
  (forall i url rq, (i < 2)%nat ->
     requests_post P (i + posts_made w) url rq = PostConnectionError) ->
  (forall url rq, requests_post P (2 + posts_made w) url rq = PostResponse r) ->
  status_code r = 200 ->
  post_retry P api req 3 None w
  = (Ok (Some r),
     log (EvPost api req (PostResponse r))
       (count_post
          (log (EvPost api req PostConnectionError)
             (count_post
                (log (EvPost api req PostConnectionError) (count_post w)))))).
Proof.
  intros Hfail Hthird H200.
  pose proof (Hfail 0%nat api req ltac:(lia)) as H0.
  pose proof (Hfail 1%nat api req ltac:(lia)) as H1.
  pose proof (Hthird api req) as H2.
  cbn [Nat.add] in H0, H1, H2.
  rewrite post_retry_S. cbv zeta. rewrite H0.
  rewrite post_retry_S. cbv zeta. cbn [posts_made log count_post]. rewrite H1.
  rewrite post_retry_S. cbv zeta. cbn [posts_made log count_post]. rewrite H2.
  now rewrite H200.
Qed.

(** C7. [get_key] never makes more than three POSTs to the transfer
    endpoint.  When the first three all end in a connection failure, it
    fails with the [RuntimeError] for an unreachable broker after exactly
    three POSTs.  When two connection failures are followed by a response
    with status 200, the exchange ends with that response after exactly
    three POSTs and the result of [get_key] is what unwrapping that
    response gives. *)
Theorem get_key_at_most_three_posts (su kid : pyval) (w : World) :
  let k := rsa_generate_private_key P (rng_draws w) 65537 3072 in
  let nonce := b64encode (public_bytes P (public_key k)) in
  let outs := posts_of (events_of (get_key P su kid) w) in
  (length outs <= 3)%nat /\
  (su <> PNone -> kid <> PNone ->
   (exists q, ccnp_get_quote P nonce = Ok (Some q)) ->
   (forall i url rq, (i < 3)%nat ->
      requests_post P (i + posts_made w) url rq = PostConnectionError) ->
   fst (get_key P su kid w)
   = Raise (RuntimeError "Unexpected response from Amber KBS") /\
   outs = [PostConnectionError; PostConnectionError; PostConnectionError]) /\
  (su <> PNone -> kid <> PNone ->
   (exists q, ccnp_get_quote P nonce = Ok (Some q)) ->
   forall r : Response,
   (forall i url rq, (i < 2)%nat ->
      requests_post P (i + posts_made w) url rq = PostConnectionError) ->
   (forall url rq, requests_post P (2 + posts_made w) url rq = PostResponse r) ->
   status_code r = 200 ->
   fst (get_key P su kid w) = unwrap_key P k r /\
   outs = [PostConnectionError; PostConnectionError; PostResponse r]).
Proof.
  intros k nonce outs. split; [| split].
  - destruct (get_key_posts su kid w) as [Hnil | (Hlen & _)];
      fold outs in Hnil || fold outs in Hlen; [rewrite Hnil; cbn; lia | lia].
  - intros Hsu Hkid [q Hq] Hfail. apply not_None in Hsu, Hkid.
    subst outs. unfold events_of.
    rewrite get_key_unfold by assumption. cbv zeta.
    fold k. fold nonce. rewrite Hq.
    rewrite post_retry_all_fail by exact Hfail.
    split; [reflexivity |]. cbn [snd trace log count_post draw].
    rewrite <- !app_assoc, drop_app_length. reflexivity.
  - intros Hsu Hkid [q Hq] r Hfail Hthird H200. apply not_None in Hsu, Hkid.
    subst outs. unfold events_of.
    rewrite get_key_unfold by assumption. cbv zeta.
    fold k. fold nonce. rewrite Hq.
    rewrite (post_retry_third_time _ _ _ r) by assumption.
    rewrite H200. cbn [negb Z.eqb Pos.eqb].
    split; [reflexivity |]. cbn [snd trace log count_post draw].
    rewrite <- !app_assoc, drop_app_length. reflexivity.
Qed.

End Exchange.

(** ** [get_key] on the demonstration platform *)

Lemma get_key_binds_fresh_key_witness :
  let P := Demo.platform Demo.kbs_flaky Demo.no_web in
  let su := PStr "https://kbs" in
  let kid := PStr "k1" in
  let k := rsa_generate_private_key P 0 65537 3072 in
  let nonce := b64encode (public_bytes P (public_key k)) in
  exists rest,
    events_of (get_key P su kid) world0
    = EvGenerateKey 65537 3072 :: EvGetQuote nonce :: rest /\
    (forall e, In e rest -> is_generate_key e = false /\ is_get_quote e = false) /\
    rng_draws (snd (get_key P su kid world0)) = 1%nat.
Proof.
  intros P su kid k nonce.
  apply (proj2 (proj2 (proj2 (get_key_binds_fresh_key P su kid world0))));
    discriminate.
Defined.

Lemma get_key_rejects_None_witness :
  let P := Demo.platform Demo.kbs_flaky Demo.no_web in
  (exists msg, get_key P PNone (PStr "k1") world0
               = (Raise (ValueError msg), world0)) /\
  events_of (get_key P PNone (PStr "k1")) world0 = [].
Proof.
  intros P. apply (get_key_rejects_None P PNone (PStr "k1") world0).
  left. reflexivity.
Defined.

(** C6 as stated fails for an empty [server_url]: the call is not
    rejected as an invalid argument; a key is generated and a quote is
    requested before the POST to the URL without a host fails. *)
Lemma empty_server_url_is_not_rejected :
  let P := Demo.platform Demo.kbs_no_schema Demo.no_web in
  let run := get_key P (PStr "") (PStr "k1") world0 in
  (forall msg, fst run <> Raise (ValueError msg)) /\
  exists o,
    trace (snd run)
    = [EvGenerateKey 65537 3072; EvGetQuote "AQABAAE=";
       EvPost "/keys/k1/transfer"
         {| quote := "UUFRQUJBQUU9"; user_data := "AQABAAE=" |} o].
Proof.
  split.
  - intros msg. vm_compute. discriminate.
  - eexists. vm_compute. reflexivity.
Qed.

Lemma get_key_retry_policy_witness :
  let P := Demo.platform Demo.kbs_500_then_ok Demo.no_web in
  let outs :=
    posts_of (events_of (get_key P (PStr "https://kbs") (PStr "k1")) world0) in
  (PostResponse Demo.server_error = PostConnectionError \/
   exists r, PostResponse Demo.server_error = PostResponse r /\
             status_code r <> 200) /\
  length outs = 2%nat.
Proof.
  intros P outs.
  pose proof (get_key_retry_policy P (PStr "https://kbs") (PStr "k1") world0)
    as (Hretry & Hstop & _ & _).
  split.
  - apply (Hretry 0%nat); [vm_compute; reflexivity | vm_compute; lia].
  - apply (Hstop 1%nat Demo.transfer_ok); vm_compute; reflexivity.
Defined.

(** C2 as stated fails: the broker answers the first POST with HTTP 500,
    and [get_key] posts again and gets the key. *)
Lemma post_repeated_after_http_500 :
  let P := Demo.platform Demo.kbs_500_then_ok Demo.no_web in
  let run := get_key P (PStr "https://kbs") (PStr "k1") in
  posts_of (events_of run world0)
  = [PostResponse Demo.server_error; PostResponse Demo.transfer_ok] /\
  status_code Demo.server_error = 500 /\
  fst (run world0) = Ok Demo.content_key.
Proof.
  vm_compute. repeat split.
Qed.

Lemma get_key_at_most_three_posts_witness :
  let su := PStr "https://kbs" in
  let kid := PStr "k1" in
  let flaky := Demo.platform Demo.kbs_flaky Demo.no_web in
  let down := Demo.platform Demo.kbs_down Demo.no_web in
  (fst (get_key down su kid world0)
   = Raise (RuntimeError "Unexpected response from Amber KBS") /\
   posts_of (events_of (get_key down su kid) world0)
   = [PostConnectionError; PostConnectionError; PostConnectionError]) /\
  (fst (get_key flaky su kid world0)
   = unwrap_key flaky (rsa_generate_private_key flaky 0 65537 3072)
       Demo.transfer_ok /\
   posts_of (events_of (get_key flaky su kid) world0)
   = [PostConnectionError; PostConnectionError;
      PostResponse Demo.transfer_ok]).
Proof.
  intros su kid flaky down. split.
  - apply (proj1 (proj2 (get_key_at_most_three_posts down su kid world0)));
      [discriminate | discriminate | eexists; reflexivity |].
    intros i url rq Hi. reflexivity.
  - apply (proj2 (proj2 (get_key_at_most_three_posts flaky su kid world0)));
      [discriminate | discriminate | eexists; reflexivity | | | reflexivity].
    + intros [| [| i]] url rq Hi; [reflexivity | reflexivity | lia].
    + intros url rq. reflexivity.
Defined.

(** The exchange of the witness ends with the content key in hand. *)
Example get_key_third_time_lucky :
  fst (get_key (Demo.platform Demo.kbs_flaky Demo.no_web)
         (PStr "https://kbs") (PStr "k1") world0)
  = Ok Demo.content_key.
Proof. vm_compute. reflexivity. Qed.

Lemma relabelled_differs_only_in_data_len :
  differ_only_in_data_len Demo.sealed_key Demo.sealed_key_relabelled.
Proof.
  split; [reflexivity |]. intros i Hi.
  do 56 (destruct i as [| i]; [first [reflexivity | lia] |]).
  reflexivity.
Qed.

Lemma decrypt_data_ignores_data_len_witness :
  let P := Demo.platform Demo.kbs_flaky Demo.no_web in
  decrypt_data P (Some Demo.sealed_key) (Some Demo.swk)
  = decrypt_data P (Some Demo.sealed_key_relabelled) (Some Demo.swk).
Proof.
  intros P.
  apply (proj2 (proj2 (proj2 (proj2
           (decrypt_data_ignores_data_len P Demo.sealed_key
              Demo.sealed_key_relabelled
              relabelled_differs_only_in_data_len Demo.swk))))).
  right. vm_compute. split; [reflexivity | discriminate].
Defined.

(** ** Retrieval: [decrypt_model] and [get_model_info] *)

Section Retrieval.
Variable P : Platform.

Lemma bind_Ok {A B} (m : M A) (f : A -> M B) (w w' : World) (b : B) :
  bind m f w = (Ok b, w') ->
  exists a w1, m w = (Ok a, w1) /\ f a w1 = (Ok b, w').
Proof.
  unfold bind. destruct (m w) as [[a | e] w1]; [eauto | discriminate].
Qed.

Lemma lift_Ok {A} (r : result A) (w w' : World) (a : A) :
  lift r w = (Ok a, w') -> r = Ok a /\ w' = w.
Proof. unfold lift. intros H. injection H as -> ->. auto. Qed.

Lemma str_add_Ok (a b c : pyval) :
  str_add a b = Ok c ->
  exists x y, a = PStr x /\ b = PStr y /\ c = PStr (x +:+ y).
Proof.
  destruct a, b; try discriminate. cbn. intros H. injection H as <-. eauto.
Qed.

Lemma open_write_Ok (p : string) (data : option bytes) (w w' : World) :
  open_write P p data w = (Ok tt, w') ->
  exists d, data = Some d /\ w' = log (EvWrite p d) (log (EvOpen p) w).
Proof.
  unfold open_write. destruct (open_wb P p); [| discriminate].
  destruct data as [d |]; [| discriminate].
  destruct (file_write P p d) as [[] | e]; [| discriminate].
  intros H. injection H as <-. eauto.
Qed.

(** C4: the code does not do what the claim says. For a [kbs] value other
    than ["amber"], [decrypt_model] raises nothing: it falls off its end
    and returns [None], without a call to a key broker. *)
Theorem decrypt_model_unrecognised_kbs (kbs kbs_url key_id : pyval)
    (model_data : bytes) (w : World) :
  eq_str kbs "amber" = false ->
  decrypt_model P kbs kbs_url key_id model_data w = (Ok None, w).
Proof.
  intros Hother. unfold decrypt_model. rewrite Hother.
  destruct (is_None kbs), (is_None kbs_url), (is_None key_id); reflexivity.
Qed.

(** C5: the code does not do what the claim says. With [kbs] absent,
    [decrypt_model] builds its [ValueError] and drops it: it raises
    nothing and returns [None].  With [kbs] ["amber"] and [kbs_url]
    absent, its own check is passed over in the same way and the call
    goes on to [get_key], whose check on the URL is the one that raises. *)
Theorem decrypt_model_checks_do_not_raise (kbs_url key_id : pyval)
    (model_data : bytes) (w : World) :
  decrypt_model P PNone kbs_url key_id model_data w = (Ok None, w) /\
  decrypt_model P (PStr "amber") PNone key_id model_data w
  = (Raise (ValueError "KBS server url can not be None"), w).
Proof.
  split.
  - unfold decrypt_model. cbn [is_None eq_str].
    destruct (is_None kbs_url), (is_None key_id); reflexivity.
  - unfold decrypt_model. cbn [is_None eq_str].
    change (String.eqb "amber" "amber") with true. cbv iota.
    destruct (is_None key_id); reflexivity.
Qed.

(** What a successful [get_model_info] has done. *)
Lemma get_model_info_Ok (self m : Model) (w w' : World) :
  get_model_info P self w = (Ok m, w') ->
  exists s i resp meta url data evs,
    _server self = PStr s /\ _id self = PStr i /\
    requests_get P (gets_made w) ((s +:+ "/") +:+ i) = Ok resp /\
    json_body resp = Ok meta /\
    value meta "url" = PStr url /\
    let p := "/tmp/" +:+ strip (replace ".enc" "" (last_item (split "/" url) "")) in
    _path m = Some p /\
    trace w' = evs ++ [EvOpen p; EvWrite p data] /\
    _model_info m
    = Some {| info_id := value meta "id";
              _details :=
                {| _name := value meta "name";
                   _version := value meta "version";
                   _framework := value meta "framework";
                   _target := value meta "target";
                   _dtype := value meta "dtype" |};
              _uploaded_date := PInt 0;
              _metrics :=
                {| _accuracy := PInt 0; _precision := PInt 0;
                   _recall := PInt 0; _f1_score := PInt 0;
                   _loss := PInt 0 |} |}.
Proof.
  unfold get_model_info. intros H.
  apply bind_Ok in H as (prefix & w1 & Hp & H).
  apply lift_Ok in Hp as [Hp ->].
  apply str_add_Ok in Hp as (s & y & Hs & Hy & ->). injection Hy as <-.
  apply bind_Ok in H as (mu & w1 & Hmu & H).
  apply lift_Ok in Hmu as [Hmu ->].
  apply str_add_Ok in Hmu as (x & i & Hx & Hi & ->). injection Hx as <-.
  apply bind_Ok in H as (resp & w1 & Hget & H).
  unfold get in Hget. injection Hget as Hget <-. cbn [py_str] in Hget.
  destruct (negb (status_code resp =? 200)); [discriminate |].
  apply bind_Ok in H as (meta & w2 & Hmeta & H).
  apply lift_Ok in Hmeta as [Hmeta ->].
  destruct (is_None (value meta "id") || is_None (value meta "url"));
    [discriminate |].
  apply bind_Ok in H as (resp2 & w2 & Hget2 & H).
  destruct (negb (status_code resp2 =? 200)); [discriminate |].
  apply bind_Ok in H as (seg & w3 & Hseg & H).
  apply lift_Ok in Hseg as [Hseg ->].
  destruct (value meta "url") as [| | | url |] eqn:Hurl; try discriminate.
  cbn [last_segment] in Hseg. injection Hseg as <-.
  apply bind_Ok in H as (data & w3 & Hdata & H).
  apply bind_Ok in H as ([] & w4 & Hopen & H).
  apply open_write_Ok in Hopen as (d & -> & ->).
  unfold ret in H. injection H as <- <-.
  exists s, i, resp, meta, url, d, (trace w3).
  cbn [_path _model_info trace log]. rewrite <- app_assoc.
  repeat split; auto.
Qed.

Lemma Model_init_Ok (server model_id : pyval) (m : Model) (w w' : World) :
  Model_init P server model_id w = (Ok m, w') ->
  get_model_info P
    {| _id := model_id; _server := server; _model_info := None;
       _model_binary := None; _path := None |} w = (Ok m, w').
Proof.
  unfold Model_init.
  now destruct (is_None model_id || is_None server).
Qed.

(** X23. What the code computes after every successful retrieval: the
    staging path is [/tmp/] followed by the text after the last [/] of
    the whole URL string (a query string or fragment is not set apart),
    with every occurrence of [.enc] removed, wherever it stands, and then
    with white space stripped from both ends; the file opened and written
    is the one of that path. *)
Theorem staging_path_of_retrieval (server model_id : pyval) (m : Model)
    (w w' : World) :
  Model_init P server model_id w = (Ok m, w') ->
  exists s i resp meta url data evs,
    server = PStr s /\ model_id = PStr i /\
    requests_get P (gets_made w) ((s +:+ "/") +:+ i) = Ok resp /\
    json_body resp = Ok meta /\
    value meta "url" = PStr url /\
    let p := "/tmp/" +:+ strip (replace ".enc" "" (last_item (split "/" url) "")) in
    path m = Some p /\
    trace w' = evs ++ [EvOpen p; EvWrite p data].
Proof.
  intros H. apply Model_init_Ok, get_model_info_Ok in H
    as (s & i & resp & meta & url & data & evs & Hs & Hi & Hget & Hmeta
        & Hurl & Hpath & Htrace & _).
  exists s, i, resp, meta, url, data, evs. cbn [_server _id] in Hs, Hi.
  repeat split; assumption.
Qed.

(** C10. Every model that is constructed carries [uploaded_date] 0 and
    metrics whose accuracy, precision, recall, F1 score and loss are all
    0, whatever the metadata endpoint returned. *)
Theorem model_info_has_zero_metrics (server model_id : pyval) (m : Model)
    (w w' : World) :
  Model_init P server model_id w = (Ok m, w') ->
  exists info,
    model_info m = Some info /\
    uploaded_date info = PInt 0 /\
    accuracy (metrics info) = PInt 0 /\
    precision (metrics info) = PInt 0 /\
    recall (metrics info) = PInt 0 /\
    f1_score (metrics info) = PInt 0 /\
    loss (metrics info) = PInt 0.
Proof.
  intros H. apply Model_init_Ok, get_model_info_Ok in H
    as (s & i & resp & meta & url & data & evs & _ & _ & _ & _ & _ & _ & _
        & Hinfo).
  eexists. split; [exact Hinfo |]. repeat split.
Qed.

End Retrieval.

(** ** Retrieval on the demonstration platform *)

Lemma decrypt_model_unrecognised_kbs_witness :
  decrypt_model (Demo.model_platform Demo.meta_vault) (PStr "vault")
    (PStr "https://kbs") (PStr "k1") Demo.model_sealed world0
  = (Ok None, world0).
Proof.
  apply (decrypt_model_unrecognised_kbs (Demo.model_platform Demo.meta_vault)
           (PStr "vault") (PStr "https://kbs") (PStr "k1") Demo.model_sealed
           world0).
  reflexivity.
Defined.

(** The retrieval of a model behind the broker type [vault]: no broker is
    contacted, the staging file is opened, and writing [None] into it
    fails with a [TypeError]. *)
Example retrieval_with_unrecognised_kbs :
  let run := Model_init (Demo.model_platform Demo.meta_vault)
               (PStr "http://models") (PStr "m1") world0 in
  on_result path (fst run)
  = Raise (TypeError "a bytes-like object is required, not 'NoneType'") /\
  trace (snd run)
  = [EvGet "http://models/m1"; EvGet "http://files/yolo.onnx.enc";
     EvOpen "/tmp/yolo.onnx"].
Proof. vm_compute. split; reflexivity. Qed.

(** The same retrieval when the metadata name no broker type at all. *)
Example retrieval_without_kbs :
  let run := Model_init (Demo.model_platform Demo.meta_no_kbs)
               (PStr "http://models") (PStr "m1") world0 in
  on_result path (fst run)
  = Raise (TypeError "a bytes-like object is required, not 'NoneType'") /\
  trace (snd run)
  = [EvGet "http://models/m1"; EvGet "http://files/yolo.onnx.enc";
     EvOpen "/tmp/yolo.onnx"].
Proof. vm_compute. split; reflexivity. Qed.

(** C9. The code does not strip the suffix only: the model
    [yolo.encoder.onnx.enc] is retrieved and decrypted, and staged as
    [/tmp/yolooder.onnx], because [replace(".enc", "")] also removes the
    [.enc] of [.encoder]; with the trailing [.enc] stripped, as the claim
    has it, the path is [/tmp/yolo.encoder.onnx]. *)
Lemma enc_inside_the_name_is_removed :
  let run := Model_init (Demo.model_platform Demo.meta_encoder)
               (PStr "http://models") (PStr "m1") world0 in
  let segment := last_item (split "/" "http://files/yolo.encoder.onnx.enc") "" in
  on_result path (fst run) = Ok (Some "/tmp/yolooder.onnx") /\
  "/tmp/" +:+ strip_suffix ".enc" segment = "/tmp/yolo.encoder.onnx".
Proof. vm_compute. split; reflexivity. Qed.

Lemma staging_path_of_retrieval_witness :
  let P := Demo.model_platform Demo.meta_encoder in
  exists m w',
    Model_init P (PStr "http://models") (PStr "m1") world0 = (Ok m, w') /\
    exists s i resp meta url data evs,
      PStr "http://models" = PStr s /\ PStr "m1" = PStr i /\
      requests_get P (gets_made world0) ((s +:+ "/") +:+ i) = Ok resp /\
      json_body resp = Ok meta /\
      value meta "url" = PStr url /\
      let p := "/tmp/" +:+ strip (replace ".enc" "" (last_item (split "/" url) "")) in
      path m = Some p /\
      trace w' = evs ++ [EvOpen p; EvWrite p data].
Proof.
  intros P.
  destruct (Model_init P (PStr "http://models") (PStr "m1") world0)
    as [[m | e] w'] eqn:E.
  - exists m, w'. split; [reflexivity |].
    apply (staging_path_of_retrieval P (PStr "http://models") (PStr "m1")
             m world0 w' E).
  - exfalso. revert E. vm_compute. discriminate.
Defined.

Lemma model_info_has_zero_metrics_witness :
  let P := Demo.platform Demo.kbs_down
             (Demo.web Demo.meta_plain "http://files/yolo.onnx"
                Demo.model_plain) in
  value (list_to_map Demo.meta_plain) "accuracy" = PInt 97 /\
  exists m w',
    Model_init P (PStr "http://models") (PStr "m1") world0 = (Ok m, w') /\
    exists info,
      model_info m = Some info /\
      uploaded_date info = PInt 0 /\
      accuracy (metrics info) = PInt 0 /\
      precision (metrics info) = PInt 0 /\
      recall (metrics info) = PInt 0 /\
      f1_score (metrics info) = PInt 0 /\
      loss (metrics info) = PInt 0.
Proof.
  intros P. split; [vm_compute; reflexivity |].
  destruct (Model_init P (PStr "http://models") (PStr "m1") world0)
    as [[m | e] w'] eqn:E.
  - exists m, w'. split; [reflexivity |].
    apply (model_info_has_zero_metrics P (PStr "http://models") (PStr "m1")
             m world0 w' E).
  - exfalso. revert E. vm_compute. discriminate.
Defined.

(** * Further properties *)

(** ** [get_key]: what is sent, and where a key comes from *)

Section KeyBroker.
Variable P : Platform.

(** The response the loop ends with is the one it started with or the
    answer to one of its POSTs. *)
Lemma post_retry_response (api : string) (req : TransferRequest) (n : nat) :
  forall (resp : option Response) (w w' : World) (r : Response),
  post_retry P api req n resp w = (Ok (Some r), w') ->
  resp = Some r \/
  exists i, (i < n)%nat /\
    requests_post P (i + posts_made w) api req = PostResponse r.
Proof.
  induction n as [| n' IH]; intros resp w w' r H.
  - cbn in H. injection H as -> _. now left.
  - rewrite post_retry_S in H. cbv zeta in H.
    set (w1 := log _ (count_post w)) in H.
    assert (Hnext : forall resp1,
      post_retry P api req n' resp1 w1 = (Ok (Some r), w') ->
      resp1 = Some r \/
      exists i, (i < S n')%nat /\
        requests_post P (i + posts_made w) api req = PostResponse r).
    { intros resp1 H1. apply IH in H1 as [-> | (i & Hi & Hr)]; [now left |].
      right. exists (S i). split; [lia |].
      cbn [posts_made log count_post w1] in Hr.
      now replace (S i + posts_made w)%nat with (i + S (posts_made w))%nat
        by lia. }
    destruct (requests_post P (posts_made w) api req) as [r0 | | e] eqn:Eo.
    + destruct (status_code r0 =? 200) eqn:Es.
      * injection H as -> _. right. exists 0%nat. split; [lia | exact Eo].
      * apply Hnext in H as [H | H]; [| now right].
        injection H as ->. right. exists 0%nat. split; [lia | exact Eo].
    + apply Hnext in H as [-> | H]; auto.
    + discriminate.
Qed.

(** The events of a call whose arguments are present, with the URL and
    the body of the POSTs written out. *)
Lemma get_key_requests (su kid : pyval) (w : World) :
  is_None su = false -> is_None kid = false ->
  let k := rsa_generate_private_key P (rng_draws w) 65537 3072 in
  let nonce := b64encode (public_bytes P (public_key k)) in
  exists outs,
    events_of (get_key P su kid) w
    = EvGenerateKey 65537 3072 :: EvGetQuote nonce
        :: map (fun o =>
                  EvPost (transfer_url su kid)
                    {| quote :=
                         match ccnp_get_quote P nonce with
                         | Ok (Some q) => b64encode q
                         | _ => ""
                         end;
                       user_data := nonce |} o) outs /\
    (outs <> [] -> exists q, ccnp_get_quote P nonce = Ok (Some q)).
Proof.
  intros Hsu Hkid. cbv zeta. unfold events_of.
  rewrite get_key_unfold by assumption. cbv zeta.
  set (k := rsa_generate_private_key P (rng_draws w) 65537 3072).
  set (nonce := b64encode (public_bytes P (public_key k))).
  set (w2 := log (EvGetQuote nonce) (log (EvGenerateKey 65537 3072) (draw w))).
  assert (Htr2 : trace w2 = trace w ++ [EvGenerateKey 65537 3072; EvGetQuote nonce])
    by (subst w2; cbn; now rewrite <- app_assoc).
  destruct (ccnp_get_quote P nonce) as [[q |] | e].
  - set (req := {| quote := b64encode q; user_data := nonce |}).
    fold (transfer_url su kid).
    destruct (post_retry_run P (transfer_url su kid) req 3 None w2)
      as (outs & Htr & _ & _).
    exists outs. split; [| eauto].
    assert (Hsnd : forall x : result bytes,
      drop (length (trace w))
        (trace (snd (x, snd (post_retry P (transfer_url su kid) req 3 None w2))))
      = EvGenerateKey 65537 3072 :: EvGetQuote nonce
          :: map (EvPost (transfer_url su kid) req) outs).
    { intros x. cbn [snd]. rewrite Htr, Htr2, <- app_assoc.
      apply drop_app_length. }
    destruct (post_retry P (transfer_url su kid) req 3 None w2)
      as [[[resp |] | e] w3]; try apply Hsnd.
    destruct (negb (status_code resp =? 200)); apply Hsnd.
  - exists []. cbn [snd map]. rewrite Htr2, drop_app_length.
    split; [reflexivity | congruence].
  - exists []. cbn [snd map]. rewrite Htr2, drop_app_length.
    split; [reflexivity | congruence].
Qed.

(** X1. Every POST of [get_key] goes to [{server_url}/keys/{key_id}/transfer]
    and carries the same body: [quote] is the base64 of the quote that the
    quote service returned for this call's nonce, [user_data] is that
    nonce, the base64 of the DER public key generated in the call. *)
Theorem get_key_posts_the_quote (su kid : pyval) (w : World)
    (url : string) (req : TransferRequest) (o : post_outcome) :
  In (EvPost url req o) (events_of (get_key P su kid) w) ->
  let k := rsa_generate_private_key P (rng_draws w) 65537 3072 in
  let nonce := b64encode (public_bytes P (public_key k)) in
  url = transfer_url su kid /\
  user_data req = nonce /\
  exists q, ccnp_get_quote P nonce = Ok (Some q) /\ quote req = b64encode q.
Proof.
  intros Hin. cbv zeta.
  destruct (get_key_events P su kid w)
    as [(_ & Hnil) | (Hn & _)]; [rewrite Hnil in Hin; contradiction |].
  apply orb_false_elim in Hn as [Hsu Hkid].
  destruct (get_key_requests su kid w Hsu Hkid) as (outs & Hev & Hq).
  rewrite Hev in Hin.
  destruct Hin as [Hin | [Hin | Hin]]; [discriminate | discriminate |].
  apply in_map_iff in Hin as (o' & Heq & Ho').
  destruct Hq as [q Hq]; [intros ->; contradiction |].
  rewrite Hq in Heq. injection Heq as <- <- _.
  repeat split. exists q. auto.
Qed.

(** X2. A key that [get_key] returns comes out of a response with status 200
    to one of the at most three POSTs of the call; the response has both
    wrapped fields; the SWK is recovered with the private key generated in
    this call, the one whose public half went into the quote; and the key
    is what [decrypt_data] makes of [wrapped_key] under that SWK. *)
Theorem get_key_returns_unwrapped_key (su kid : pyval) (w w' : World)
    (key : bytes) :
  get_key P su kid w = (Ok key, w') ->
  let k := rsa_generate_private_key P (rng_draws w) 65537 3072 in
  let nonce := b64encode (public_bytes P (public_key k)) in
  exists q i resp body wk ws wrapped_key wrapped_swk swk,
    ccnp_get_quote P nonce = Ok (Some q) /\
    (i < 3)%nat /\
    requests_post P (i + posts_made w) (transfer_url su kid)
      {| quote := b64encode q; user_data := nonce |} = PostResponse resp /\
    status_code resp = 200 /\
    json_body resp = Ok body /\
    body !! "wrapped_key" = Some wk /\
    body !! "wrapped_swk" = Some ws /\
    b64decode P wk = Ok wrapped_key /\
    b64decode P ws = Ok wrapped_swk /\
    rsa_oaep_decrypt P k wrapped_swk = Ok swk /\
    decrypt_data P (Some wrapped_key) (Some swk) = Ok key.
Proof.
  intros H. cbv zeta.
  destruct (is_None su) eqn:Hsu;
    [unfold get_key in H; rewrite Hsu in H; discriminate |].
  destruct (is_None kid) eqn:Hkid;
    [unfold get_key in H; rewrite Hsu, Hkid in H; discriminate |].
  rewrite get_key_unfold in H by assumption. cbv zeta in H.
  set (k := rsa_generate_private_key P (rng_draws w) 65537 3072) in *.
  set (nonce := b64encode (public_bytes P (public_key k))) in *.
  destruct (ccnp_get_quote P nonce) as [[q |] | e]; try discriminate.
  fold (transfer_url su kid) in H.
  set (req := {| quote := b64encode q; user_data := nonce |}) in *.
  set (w2 := log (EvGetQuote nonce) _) in H.
  destruct (post_retry P (transfer_url su kid) req 3 None w2)
    as [[[resp |] | e] w3] eqn:Eloop; try discriminate.
  destruct (status_code resp =? 200) eqn:E200; [| discriminate].
  cbn [negb] in H. injection H as Hkey _.
  apply post_retry_response in Eloop as [? | (i & Hi & Hpost)];
    [discriminate |].
  unfold unwrap_key in Hkey.
  destruct (json_body resp) as [body | e] eqn:Ebody; [| discriminate].
  destruct (body !! "wrapped_key") as [wk |] eqn:Ewk; [| discriminate].
  destruct (body !! "wrapped_swk") as [ws |] eqn:Ews; [| discriminate].
  destruct (b64decode P wk) as [wrapped_key | e] eqn:Edk; [| discriminate].
  destruct (b64decode P ws) as [wrapped_swk | e] eqn:Eds; [| discriminate].
  destruct (rsa_oaep_decrypt P k wrapped_swk) as [swk | e] eqn:Eswk;
    [| discriminate].
  exists q, i, resp, body, wk, ws, wrapped_key, wrapped_swk, swk.
  apply Z.eqb_eq in E200.
  split; [reflexivity |]. split; [exact Hi |]. split; [exact Hpost |].
  repeat split; assumption.
Qed.

(** X3. Without a quote there is no exchange: when the quote service returns
    [None], [get_key] raises [RuntimeError("Get TDX Quote failed")], and
    when it raises, [get_key] raises the same; in both cases a key was
    generated and the quote requested, and nothing was sent to the
    broker. *)
Theorem get_key_without_quote (su kid : pyval) (w : World) :
  su <> PNone -> kid <> PNone ->
  let k := rsa_generate_private_key P (rng_draws w) 65537 3072 in
  let nonce := b64encode (public_bytes P (public_key k)) in
  forall e,
  ccnp_get_quote P nonce = Ok None /\ e = RuntimeError "Get TDX Quote failed"
  \/ ccnp_get_quote P nonce = Raise e ->
  fst (get_key P su kid w) = Raise e /\
  events_of (get_key P su kid) w
  = [EvGenerateKey 65537 3072; EvGetQuote nonce].
Proof.
  intros Hsu Hkid. apply not_None in Hsu, Hkid. cbv zeta. intros e Hq.
  unfold events_of. rewrite get_key_unfold by assumption. cbv zeta.
  destruct Hq as [[-> ->] | ->]; cbn [fst snd trace log draw];
    rewrite <- app_assoc, drop_app_length; auto.
Qed.

(** Three rounds that all end in a retryable outcome leave the loop
    without a response or with one whose status is not 200. *)
Lemma post_retry_exhausted (api : string) (req : TransferRequest) (n : nat) :
  forall (resp : option Response) (w : World),
  (forall i, (i < n)%nat ->
     retryable (requests_post P (i + posts_made w) api req) = true) ->
  (forall r, resp = Some r -> status_code r <> 200) ->
  exists resp' w' outs,
    post_retry P api req n resp w = (Ok resp', w') /\
    (forall r, resp' = Some r -> status_code r <> 200) /\
    trace w' = trace w ++ map (EvPost api req) outs /\
    length outs = n.
Proof.
  induction n as [| n' IH]; intros resp w Hall Hresp.
  - exists resp, w, []. cbn. rewrite app_nil_r. auto.
  - rewrite post_retry_S. cbv zeta.
    pose proof (Hall 0%nat ltac:(lia)) as H0. cbn [Nat.add] in H0.
    set (o := requests_post P (posts_made w) api req) in *.
    set (w1 := log (EvPost api req o) (count_post w)).
    assert (Hrest : forall i, (i < n')%nat ->
              retryable (requests_post P (i + posts_made w1) api req) = true).
    { intros i Hi. cbn [posts_made w1 log count_post].
      replace (i + S (posts_made w))%nat with (S i + posts_made w)%nat by lia.
      apply Hall. lia. }
    assert (Hstep : forall resp1,
      (forall r, resp1 = Some r -> status_code r <> 200) ->
      exists resp' w' outs,
        post_retry P api req n' resp1 w1 = (Ok resp', w') /\
        (forall r, resp' = Some r -> status_code r <> 200) /\
        trace w' = trace w ++ map (EvPost api req) outs /\
        length outs = S n').
    { intros resp1 H1.
      destruct (IH resp1 w1 Hrest H1) as (resp' & w' & outs & Hrun & Hr & Htr & Hlen).
      exists resp', w', (o :: outs). rewrite Hrun, Htr. subst w1. cbn.
      rewrite <- app_assoc. auto. }
    destruct o as [r | | e]; [| apply Hstep; exact Hresp | discriminate].
    cbn in H0. apply negb_true_iff in H0. rewrite H0.
    apply Hstep. intros r' Hr'. injection Hr' as <-. now apply Z.eqb_neq.
Qed.

(** X4. When each of the three POSTs ends in a connection failure or in a
    response whose status is not 200, in any mix, [get_key] gives up after
    exactly three POSTs with
    [RuntimeError("Unexpected response from Amber KBS")]. *)
Theorem get_key_gives_up (su kid : pyval) (w : World) :
  su <> PNone -> kid <> PNone ->
  let k := rsa_generate_private_key P (rng_draws w) 65537 3072 in
  let nonce := b64encode (public_bytes P (public_key k)) in
  (exists q, ccnp_get_quote P nonce = Ok (Some q)) ->
  (forall i url rq, (i < 3)%nat ->
     retryable (requests_post P (i + posts_made w) url rq) = true) ->
  fst (get_key P su kid w)
  = Raise (RuntimeError "Unexpected response from Amber KBS") /\
  length (posts_of (events_of (get_key P su kid) w)) = 3%nat.
Proof.
  intros Hsu Hkid. apply not_None in Hsu, Hkid. cbv zeta.
  intros [q Hq] Hall. unfold events_of.
  rewrite get_key_unfold by assumption. cbv zeta. rewrite Hq.
  set (k := rsa_generate_private_key P (rng_draws w) 65537 3072).
  set (nonce := b64encode (public_bytes P (public_key k))).
  set (w2 := log (EvGetQuote nonce) (log (EvGenerateKey 65537 3072) (draw w))).
  set (req := {| quote := b64encode q; user_data := nonce |}).
  set (api := py_str su +:+ "/keys/" +:+ py_str kid +:+ "/transfer").
  destruct (post_retry_exhausted api req 3 None w2)
    as (resp' & w3 & outs & Hrun & Hresp & Htr & Hlen).
  { intros i Hi. apply (Hall i api req Hi). }
  { discriminate. }
  rewrite Hrun.
  assert (Hposts : forall x : result bytes,
    length (posts_of (drop (length (trace w)) (trace (snd (x, w3))))) = 3%nat).
  { intros x. cbn [snd]. rewrite Htr. subst w2. cbn [trace log draw].
    rewrite <- !app_assoc, drop_app_length. cbn [app posts_of].
    now rewrite posts_of_map. }
  destruct resp' as [r |]; [| split; [reflexivity | apply Hposts]].
  specialize (Hresp r eq_refl). apply Z.eqb_neq in Hresp. rewrite Hresp.
  split; [reflexivity | apply Hposts].
Qed.

(** X5. A response with status 200 that lacks [wrapped_key] or [wrapped_swk]
    ends [get_key] with [RuntimeError("Empty key response from Amber
    KBS")] after that one POST; nothing is decoded or decrypted, whatever
    else the body holds. *)
Theorem get_key_empty_response (su kid : pyval) (w : World)
    (r : Response) (body : gmap string pyval) :
  su <> PNone -> kid <> PNone ->
  let k := rsa_generate_private_key P (rng_draws w) 65537 3072 in
  let nonce := b64encode (public_bytes P (public_key k)) in
  (exists q, ccnp_get_quote P nonce = Ok (Some q)) ->
  (forall url rq, requests_post P (posts_made w) url rq = PostResponse r) ->
  status_code r = 200 ->
  json_body r = Ok body ->
  body !! "wrapped_key" = None \/ body !! "wrapped_swk" = None ->
  fst (get_key P su kid w)
  = Raise (RuntimeError "Empty key response from Amber KBS") /\
  posts_of (events_of (get_key P su kid) w) = [PostResponse r].
Proof.
  intros Hsu Hkid. apply not_None in Hsu, Hkid. cbv zeta.
  intros [q Hq] Hpost H200 Hbody Hmissing. unfold events_of.
  rewrite get_key_unfold by assumption. cbv zeta. rewrite Hq.
  assert (E200 : (status_code r =? 200) = true) by now rewrite H200.
  rewrite post_retry_S. cbv zeta. cbn [posts_made log draw].
  rewrite Hpost. cbv beta iota. rewrite E200. cbv beta iota.
  rewrite E200. cbn [negb]. cbv beta iota.
  split.
  - cbn [fst]. unfold unwrap_key. rewrite Hbody.
    destruct Hmissing as [-> | ->]; [reflexivity |].
    now destruct (body !! "wrapped_key").
  - cbn [snd trace log count_post draw].
    rewrite <- !app_assoc, drop_app_length. reflexivity.
Qed.

End KeyBroker.

(** ** [decrypt_data]: layout, bounds and edges *)

Section Envelope.
Variable P : Platform.

Lemma length_sub {A} (l : list A) (a b : Z) :
  length (sub l a b) = (Z.to_nat (b - a) `min` (length l - Z.to_nat a))%nat.
Proof. unfold sub. now rewrite length_take, length_drop. Qed.

(** X6. For an envelope laid out as the docstring draws it, a 12-byte header
    that announces the lengths of IV and tag, then the IV, the encrypted
    data and a tag that is not empty, [decrypt_data] hands exactly that
    IV, that tag and that data to the cipher, whatever [data_len] says. *)
Theorem decrypt_data_layout (header iv data tag key : bytes) (data_len : Z) :
  struct_unpack_3I header
  = Ok (Z.of_nat (length iv), Z.of_nat (length tag), data_len) ->
  (0 < length tag)%nat ->
  decrypt_data P (Some (header ++ iv ++ data ++ tag)) (Some key)
  = aes_gcm_decrypt P key iv tag data.
Proof.
  intros Hhdr Htag.
  assert (Hlen : length header = 12%nat).
  { do 13 (destruct header as [| ? header]; try discriminate Hhdr).
    reflexivity. }
  set (envelope := header ++ iv ++ data ++ tag).
  assert (Hn : length envelope
               = (12 + length iv + length data + length tag)%nat).
  { subst envelope. rewrite !length_app. lia. }
  assert (Hfields : env_iv_len envelope = Z.of_nat (length iv) /\
                    env_tag_len envelope = Z.of_nat (length tag)).
  { pose proof (unpack_header envelope ltac:(lia)) as Hu.
    subst envelope. rewrite take_app_length' in Hu by lia.
    rewrite Hhdr in Hu. injection Hu as -> -> _. auto. }
  destruct Hfields as [Hiv Ht].
  rewrite decrypt_data_tagged by lia.
  unfold env_iv, env_tag, env_ciphertext, env_len, sub. rewrite Hiv, Ht, Hn.
  replace (Z.to_nat (12 + Z.of_nat (length iv) - 12)) with (length iv) by lia.
  replace (Z.to_nat 12) with (length header) by lia.
  replace (Z.to_nat
             (Z.of_nat (12 + length iv + length data + length tag)
              - (Z.of_nat (12 + length iv + length data + length tag)
                 - Z.of_nat (length tag))))
    with (length tag) by lia.
  replace (Z.to_nat
             (Z.of_nat (12 + length iv + length data + length tag)
              - Z.of_nat (length tag)))
    with (length header + (length iv + length data))%nat by lia.
  replace (Z.to_nat
             (Z.of_nat (12 + length iv + length data + length tag)
              - Z.of_nat (length tag) - (12 + Z.of_nat (length iv))))
    with (length data) by lia.
  replace (Z.to_nat (12 + Z.of_nat (length iv)))
    with (length header + length iv)%nat by lia.
  subst envelope.
  assert (Hdrop_iv : drop (length header) (header ++ iv ++ data ++ tag)
                     = iv ++ data ++ tag) by apply drop_app_length.
  assert (Hdrop_data : drop (length header + length iv)
                         (header ++ iv ++ data ++ tag) = data ++ tag).
  { rewrite <- drop_drop, Hdrop_iv. apply drop_app_length. }
  assert (Hdrop_tag : drop (length header + (length iv + length data))
                        (header ++ iv ++ data ++ tag) = tag).
  { rewrite Nat.add_assoc, <- drop_drop, Hdrop_data. apply drop_app_length. }
  rewrite Hdrop_iv, Hdrop_data, Hdrop_tag.
  rewrite !take_app_length. now rewrite take_ge by lia.
Qed.

(** X7. An envelope that is shorter than the 12-byte header is refused with
    [struct.error] for every key, before any cipher is set up; a missing
    envelope or key is refused with a [ValueError], the envelope first. *)
Theorem decrypt_data_rejects (envelope : bytes) (key key' : option bytes) :
  decrypt_data P None key
  = Raise (ValueError "The encrypted data can not be None") /\
  decrypt_data P (Some envelope) None
  = Raise (ValueError "The key can not be None") /\
  ((length envelope < 12)%nat -> key' <> None ->
   decrypt_data P (Some envelope) key'
   = Raise (StructError "unpack requires a buffer of 12 bytes")).
Proof.
  split; [reflexivity |]. split; [reflexivity |].
  intros Hshort Hkey. destruct key' as [k |]; [| congruence].
  now apply decrypt_data_short.
Qed.

(** X8. With a cipher that checks IV and tag lengths as the library does,
    every envelope that [decrypt_data] decrypts is at least 20 bytes long
    and announces an IV of at least 8 bytes and a tag of 1 to 16 bytes. *)
Theorem decrypt_data_accepts_only (envelope key plain : bytes) :
  gcm_checks_lengths P ->
  decrypt_data P (Some envelope) (Some key) = Ok plain ->
  (20 <= length envelope)%nat /\
  8 <= env_iv_len envelope /\
  1 <= env_tag_len envelope <= 16.
Proof.
  intros Hgcm Hok.
  destruct (Nat.lt_ge_cases (length envelope) 12) as [Hshort | Hlen].
  { rewrite decrypt_data_short in Hok by assumption. discriminate. }
  pose proof (env_tag_len_nonneg envelope) as Hnn.
  assert (Hpos : 0 < env_tag_len envelope).
  { destruct (Z.eq_dec (env_tag_len envelope) 0) as [Hzero | Hne]; [| lia].
    rewrite decrypt_data_untagged in Hok by assumption.
    apply Hgcm in Hok as [Hiv Htag].
    pose proof (length_env_iv envelope). lia. }
  rewrite decrypt_data_tagged in Hok by assumption.
  apply Hgcm in Hok as [Hiv Htag].
  unfold env_iv, env_tag, env_len in Hiv, Htag.
  rewrite length_sub in Hiv, Htag. lia.
Qed.

(** X9. [decrypt_data] does not check that the announced lengths fit.  When
    [iv_len] runs past the end of the envelope, the IV is all that follows
    the header, the data is empty, and the tag, the last [tag_len] bytes,
    overlaps the IV. *)
Theorem decrypt_data_iv_overrun (envelope key : bytes) :
  (12 <= length envelope)%nat ->
  Z.of_nat (length envelope) <= 12 + env_iv_len envelope ->
  0 < env_tag_len envelope ->
  decrypt_data P (Some envelope) (Some key)
  = aes_gcm_decrypt P key (drop 12 envelope)
      (drop (length envelope - Z.to_nat (env_tag_len envelope)) envelope) [].
Proof.
  intros Hlen Hover Htag. rewrite decrypt_data_tagged by assumption.
  f_equal.
  - unfold env_iv, sub. change (Z.to_nat 12) with 12%nat.
    apply take_ge. rewrite length_drop. lia.
  - unfold env_tag, env_len, sub.
    replace (Z.to_nat (Z.of_nat (length envelope) - env_tag_len envelope))
      with (length envelope - Z.to_nat (env_tag_len envelope))%nat by lia.
    apply take_ge. rewrite length_drop. lia.
  - unfold env_ciphertext, env_len, sub.
    rewrite drop_ge by lia. apply take_nil.
Qed.

End Envelope.

(** ** Retrieval: errors, effects and what is written *)

Section Staging.
Variable P : Platform.

(** [get_model_info] for a server and an id that are strings, written
    out step by step. *)
Lemma get_model_info_unfold (self : Model) (w : World) (s i : string) :
  _server self = PStr s -> _id self = PStr i ->
  get_model_info P self w
  = let url0 := (s +:+ "/") +:+ i in
    let w1 := log (EvGet url0) (count_get w) in
    match requests_get P (gets_made w) url0 with
    | Raise e => (Raise e, w1)
    | Ok resp =>
      if negb (status_code resp =? 200) then
        (Raise (ConnectionError "Connect model server failed, error code: "
                  (status_code resp)), w1)
      else
        match json_body resp with
        | Raise e => (Raise e, w1)
        | Ok meta =>
          if is_None (value meta "id") || is_None (value meta "url") then
            (Raise (RuntimeError "Model meta data is not valid"), w1)
          else
            let url := py_str (value meta "url") in
            let w2 := log (EvGet url) (count_get w1) in
            match requests_get P (S (gets_made w)) url with
            | Raise e => (Raise e, w2)
            | Ok resp2 =>
              if negb (status_code resp2 =? 200) then
                (Raise (ConnectionError
                          "Download model from server failed, error code: "
                          (status_code resp2)), w2)
              else
                match last_segment (value meta "url") with
                | Raise e => (Raise e, w2)
                | Ok seg =>
                  let p := "/tmp/" +:+ strip (replace ".enc" "" seg) in
                  match
                    (if truthy (value meta "encrypted")
                     then decrypt_model P (value meta "kbs")
                            (value meta "kbs_url") (value meta "key_id")
                            (content resp2) w2
                     else (Ok (Some (content resp2)), w2))
                  with
                  | (Raise e, w3) => (Raise e, w3)
                  | (Ok data, w3) =>
                    match open_write P p data w3 with
                    | (Raise e, w4) => (Raise e, w4)
                    | (Ok _, w4) => (Ok (loaded self meta p), w4)
                    end
                  end
                end
            end
        end
    end.
Proof.
  intros Hs Hi. unfold get_model_info, loaded. rewrite Hs, Hi.
  unfold bind, lift, get, ret, raise. cbn [str_add py_str]. cbv zeta.
  destruct (requests_get P (gets_made w) _) as [resp | e]; [| reflexivity].
  destruct (negb (status_code resp =? 200)); [reflexivity |].
  destruct (json_body resp) as [meta | e]; [| reflexivity].
  destruct (is_None (value meta "id") || is_None (value meta "url"));
    [reflexivity |].
  cbn [gets_made log count_get].
  destruct (requests_get P (S (gets_made w)) _) as [resp2 | e];
    [| reflexivity].
  destruct (negb (status_code resp2 =? 200)); [reflexivity |].
  destruct (last_segment (value meta "url")) as [seg | e]; [| reflexivity].
  destruct (truthy (value meta "encrypted")).
  - destruct (decrypt_model P _ _ _ _ _) as [[data | e] w3]; [| reflexivity].
    destruct (open_write P _ data w3) as [[[] | e] w4]; reflexivity.
  - destruct (open_write P _ _ _) as [[[] | e] w4]; reflexivity.
Qed.

(** X10. The constructor refuses a missing server or model id with a
    [ValueError], and a server or id that is not a string with a
    [TypeError], before any request is made. *)
Theorem Model_init_rejects (server model_id : pyval) (w : World) :
  (forall s, server <> PStr s) \/ (forall i, model_id <> PStr i) ->
  (exists e, Model_init P server model_id w = (Raise e, w) /\
     (server = PNone \/ model_id = PNone ->
      e = ValueError "Model server or model id can not be None")) /\
  events_of (Model_init P server model_id) w = [].
Proof.
  intros Hbad.
  assert (H : exists e, Model_init P server model_id w = (Raise e, w) /\
     (server = PNone \/ model_id = PNone ->
      e = ValueError "Model server or model id can not be None")).
  { unfold Model_init, get_model_info, bind, lift, raise.
    cbn [_server _id].
    destruct server as [| b | z | s | r t], model_id as [| b' | z' | i | r' t'];
      cbn; try (eexists; split; [reflexivity | intros [? | ?]; congruence]).
    destruct Hbad as [Hbad | Hbad]; [destruct (Hbad s) | destruct (Hbad i)];
      reflexivity. }
  split; [exact H |].
  destruct H as (e & H & _). now apply events_of_same with (r := Raise e).
Qed.

(** X11. When the metadata request is answered with a status other than 200,
    the constructor raises [ConnectionError] with that status after this
    one request: nothing is downloaded, no broker is contacted, no file is
    touched. *)
Theorem metadata_status_not_200 (s i : string) (w : World) (resp : Response) :
  requests_get P (gets_made w) ((s +:+ "/") +:+ i) = Ok resp ->
  status_code resp <> 200 ->
  fst (Model_init P (PStr s) (PStr i) w)
  = Raise (ConnectionError "Connect model server failed, error code: "
             (status_code resp)) /\
  events_of (Model_init P (PStr s) (PStr i)) w = [EvGet ((s +:+ "/") +:+ i)].
Proof.
  intros Hget Hstatus. apply Z.eqb_neq in Hstatus.
  unfold events_of, Model_init. cbn [is_None orb].
  rewrite (get_model_info_unfold _ w s i) by reflexivity. cbv zeta.
  rewrite Hget, Hstatus. cbn [negb fst snd trace log count_get].
  now rewrite drop_app_length.
Qed.

(** X12. Metadata without an [id] or without a [url] (absent or null) end the
    constructor with [RuntimeError("Model meta data is not valid")] before
    any download is attempted. *)
Theorem metadata_without_id_or_url (s i : string) (w : World)
    (resp : Response) (meta : gmap string pyval) :
  requests_get P (gets_made w) ((s +:+ "/") +:+ i) = Ok resp ->
  status_code resp = 200 ->
  json_body resp = Ok meta ->
  value meta "id" = PNone \/ value meta "url" = PNone ->
  fst (Model_init P (PStr s) (PStr i) w)
  = Raise (RuntimeError "Model meta data is not valid") /\
  events_of (Model_init P (PStr s) (PStr i)) w = [EvGet ((s +:+ "/") +:+ i)].
Proof.
  intros Hget H200 Hmeta Hmissing.
  assert (Hn : is_None (value meta "id") || is_None (value meta "url") = true).
  { destruct Hmissing as [-> | ->]; [reflexivity | apply orb_true_r]. }
  unfold events_of, Model_init. cbn [is_None orb].
  rewrite (get_model_info_unfold _ w s i) by reflexivity. cbv zeta.
  rewrite Hget, H200, Hmeta, Hn. cbn [negb Z.eqb Pos.eqb fst snd trace log count_get].
  now rewrite drop_app_length.
Qed.

(** X13. When the download of the model is answered with a status other than
    200, the constructor raises [ConnectionError] with that status after
    the two requests: no broker is contacted and no file is touched. *)
Theorem download_status_not_200 (s i : string) (w : World)
    (resp resp2 : Response) (meta : gmap string pyval) :
  requests_get P (gets_made w) ((s +:+ "/") +:+ i) = Ok resp ->
  status_code resp = 200 ->
  json_body resp = Ok meta ->
  value meta "id" <> PNone -> value meta "url" <> PNone ->
  requests_get P (S (gets_made w)) (py_str (value meta "url")) = Ok resp2 ->
  status_code resp2 <> 200 ->
  fst (Model_init P (PStr s) (PStr i) w)
  = Raise (ConnectionError "Download model from server failed, error code: "
             (status_code resp2)) /\
  events_of (Model_init P (PStr s) (PStr i)) w
  = [EvGet ((s +:+ "/") +:+ i); EvGet (py_str (value meta "url"))].
Proof.
  intros Hget H200 Hmeta Hid Hurl Hget2 Hstatus.
  apply not_None in Hid, Hurl. apply Z.eqb_neq in Hstatus.
  unfold events_of, Model_init. cbn [is_None orb].
  rewrite (get_model_info_unfold _ w s i) by reflexivity. cbv zeta.
  rewrite Hget, H200, Hmeta, Hid, Hurl, Hget2, Hstatus.
  cbn [negb orb Z.eqb Pos.eqb fst snd trace log count_get].
  now rewrite <- app_assoc, drop_app_length.
Qed.

(** [decrypt_model] without its three checks, which never raise. *)
Lemma decrypt_model_unfold (kbs kbs_url key_id : pyval) (model_data : bytes)
    (w : World) :
  decrypt_model P kbs kbs_url key_id model_data w
  = if eq_str kbs "amber" then
      match get_key P kbs_url key_id w with
      | (Ok key, w') =>
          (on_result Some (decrypt_data P (Some model_data) (Some key)), w')
      | (Raise e, w') => (Raise e, w')
      end
    else (Ok None, w).
Proof.
  unfold decrypt_model, built_not_raised, bind, lift, ret.
  destruct (is_None kbs), (is_None kbs_url), (is_None key_id);
    destruct (eq_str kbs "amber"); try reflexivity;
    destruct (get_key P kbs_url key_id w) as [[key | e] w']; try reflexivity;
    now destruct (decrypt_data P (Some model_data) (Some key)).
Qed.

Lemma get_key_broker_events (su kid : pyval) (w : World) :
  trace (snd (get_key P su kid w))
  = trace w ++ events_of (get_key P su kid) w /\
  Forall (fun e => is_broker_event e = true) (events_of (get_key P su kid) w).
Proof.
  destruct (get_key_run P su kid w)
    as [(_ & msg & H) | (_ & api & req & outs & Htr & _)].
  - rewrite (events_of_same _ w (Raise (ValueError msg)) H), H.
    cbn. now rewrite app_nil_r.
  - rewrite (events_of_app _ w _ Htr). split; [exact Htr |].
    repeat constructor. apply Forall_forall. intros e He.
    apply list_elem_of_In, in_map_iff in He as (o & <- & _). reflexivity.
Qed.

Lemma decrypt_model_broker_events (kbs kbs_url key_id : pyval)
    (model_data : bytes) (w : World) :
  exists evs,
    trace (snd (decrypt_model P kbs kbs_url key_id model_data w))
    = trace w ++ evs /\
    Forall (fun e => is_broker_event e = true) evs.
Proof.
  rewrite decrypt_model_unfold.
  destruct (eq_str kbs "amber").
  - destruct (get_key_broker_events kbs_url key_id w) as [Htr Hall].
    exists (events_of (get_key P kbs_url key_id) w).
    split; [| exact Hall].
    now destruct (get_key P kbs_url key_id w) as [[key | e] w'].
  - exists []. cbn. now rewrite app_nil_r.
Qed.

(** The events of every run of the constructor have the shape of
    [run_shape]. *)
Lemma Model_init_events (server model_id : pyval) (w : World) :
  run_shape P (fst (Model_init P server model_id w))
    (events_of (Model_init P server model_id) w).
Proof.
  assert (Hshape : forall (x : result Model) (w3 : World)
                          (gets broker files : list event),
    trace w3 = trace w ++ gets ++ broker ++ files ->
    Forall (fun e => is_get e = true) gets ->
    (length gets <= 2)%nat ->
    Forall (fun e => is_broker_event e = true) broker ->
    file_stage P x files ->
    run_shape P (fst (x, w3))
      (drop (length (trace w)) (trace (snd (x, w3))))).
  { intros x w3 gets broker files Htr Hg Hl Hb Hf.
    exists gets, broker, files. cbn [fst snd].
    rewrite Htr, drop_app_length. auto. }
  assert (Hquiet : forall e, Model_init P server model_id w = (Raise e, w) ->
    run_shape P (fst (Model_init P server model_id w))
      (events_of (Model_init P server model_id) w)).
  { intros e H. unfold events_of. rewrite H.
    apply (Hshape _ w [] [] []); [now rewrite !app_nil_r | constructor
      | cbn; lia | constructor |].
    left. eauto. }
  destruct server as [| b | z | s | r t];
    try (destruct model_id; eapply Hquiet;
         unfold Model_init, get_model_info, bind, lift; reflexivity).
  destruct model_id as [| b' | z' | i | r' t'];
    try (eapply Hquiet; unfold Model_init, get_model_info, bind, lift;
         reflexivity).
  unfold events_of, Model_init. cbn [is_None orb].
  rewrite (get_model_info_unfold _ w s i) by reflexivity. cbv zeta.
  set (g1 := EvGet ((s +:+ "/") +:+ i)).
  set (w1 := log g1 (count_get w)).
  assert (Hone : forall e : exn,
    run_shape P (fst (@Raise Model e, w1))
      (drop (length (trace w)) (trace (snd (@Raise Model e, w1))))).
  { intros e. apply (Hshape _ w1 [g1] [] []);
      [reflexivity | repeat constructor | cbn; lia | constructor |].
    left. eauto. }
  destruct (requests_get P (gets_made w) _) as [resp | e]; [| apply Hone].
  destruct (negb (status_code resp =? 200)); [apply Hone |].
  destruct (json_body resp) as [meta | e]; [| apply Hone].
  destruct (is_None (value meta "id") || is_None (value meta "url"));
    [apply Hone |].
  set (g2 := EvGet (py_str (value meta "url"))).
  set (w2 := log g2 (count_get w1)).
  assert (Hw2 : trace w2 = trace w ++ [g1; g2])
    by (subst w2 w1; cbn [trace log count_get]; now rewrite <- app_assoc).
  assert (Htwo : forall (x : result Model) (w3 : World)
                        (broker files : list event),
    trace w3 = trace w2 ++ broker ++ files ->
    Forall (fun e => is_broker_event e = true) broker ->
    file_stage P x files ->
    run_shape P (fst (x, w3))
      (drop (length (trace w)) (trace (snd (x, w3))))).
  { intros x w3 broker files Htr Hb Hf.
    apply (Hshape x w3 [g1; g2] broker files);
      [rewrite Htr, Hw2, <- !app_assoc; reflexivity | repeat constructor
      | cbn; lia | exact Hb | exact Hf]. }
  assert (Hnone : forall e : exn,
    run_shape P (fst (@Raise Model e, w2))
      (drop (length (trace w)) (trace (snd (@Raise Model e, w2))))).
  { intros e. apply (Htwo _ w2 [] []); [now rewrite !app_nil_r | constructor |].
    left. eauto. }
  destruct (requests_get P (S (gets_made w)) _) as [resp2 | e];
    [| apply Hnone].
  destruct (negb (status_code resp2 =? 200)); [apply Hnone |].
  destruct (last_segment (value meta "url")) as [seg | e]; [| apply Hnone].
  set (p := "/tmp/" +:+ strip (replace ".enc" "" seg)).
  set (self := {| _id := PStr i; _server := PStr s; _model_info := None;
                  _model_binary := None; _path := None |}).
  assert (Hfile : forall (data : option bytes) (w3 : World)
                         (broker : list event),
    trace w3 = trace w2 ++ broker ->
    Forall (fun e => is_broker_event e = true) broker ->
    run_shape P
      (fst (match open_write P p data w3 with
            | (Ok _, w4) => (Ok (loaded self meta p), w4)
            | (Raise e, w4) => (Raise e, w4)
            end))
      (drop (length (trace w))
         (trace (snd (match open_write P p data w3 with
                      | (Ok _, w4) => (Ok (loaded self meta p), w4)
                      | (Raise e, w4) => (Raise e, w4)
                      end))))).
  { intros data w3 broker Htr Hb. unfold open_write.
    destruct (open_wb P p) as [[] | e] eqn:Eopen.
    - destruct data as [d |].
      + destruct (file_write P p d) as [[] | e] eqn:Ewrite.
        * apply (Htwo _ _ broker [EvOpen p; EvWrite p d]); auto.
          -- cbn [trace log]. rewrite Htr, <- !app_assoc. reflexivity.
          -- right. right. right. eauto.
        * apply (Htwo _ _ broker [EvOpen p; EvWrite p d]); auto.
          -- cbn [trace log]. rewrite Htr, <- !app_assoc. reflexivity.
          -- right. right. left. eauto 6.
      + apply (Htwo _ _ broker [EvOpen p]); auto.
        * cbn [trace log]. rewrite Htr, <- !app_assoc. reflexivity.
        * right. left. eauto 6.
    - apply (Htwo _ _ broker [EvOpen p]); auto.
      * cbn [trace log]. rewrite Htr, <- !app_assoc. reflexivity.
      * right. left. eauto 6. }
  destruct (truthy (value meta "encrypted")).
  - destruct (decrypt_model_broker_events (value meta "kbs")
                (value meta "kbs_url") (value meta "key_id") (content resp2) w2)
      as (broker & Htr & Hb).
    destruct (decrypt_model P _ _ _ _ w2) as [[data | e] w3];
      cbn [snd] in Htr.
    + exact (Hfile data w3 broker Htr Hb).
    + apply (Htwo _ w3 broker []); auto.
      * now rewrite app_nil_r.
      * left. eauto.
  - apply (Hfile (Some (content resp2)) w2 []);
      [now rewrite app_nil_r | constructor].
Qed.

(** What a constructor that returns has seen and done. *)
Lemma Model_init_success (server model_id : pyval) (m : Model) (w w' : World) :
  Model_init P server model_id w = (Ok m, w') ->
  exists s i resp meta url resp2 data w3,
    server = PStr s /\ model_id = PStr i /\
    requests_get P (gets_made w) ((s +:+ "/") +:+ i) = Ok resp /\
    status_code resp = 200 /\
    json_body resp = Ok meta /\
    value meta "id" <> PNone /\
    value meta "url" = PStr url /\
    requests_get P (S (gets_made w)) url = Ok resp2 /\
    status_code resp2 = 200 /\
    m = loaded {| _id := PStr i; _server := PStr s; _model_info := None;
                  _model_binary := None; _path := None |}
          meta (staging_path url) /\
    (if truthy (value meta "encrypted")
     then decrypt_model P (value meta "kbs") (value meta "kbs_url")
            (value meta "key_id") (content resp2)
            (log (EvGet url)
               (count_get (log (EvGet ((s +:+ "/") +:+ i)) (count_get w))))
     else (Ok (Some (content resp2)),
           log (EvGet url)
             (count_get (log (EvGet ((s +:+ "/") +:+ i)) (count_get w)))))
    = (Ok (Some data), w3) /\
    open_wb P (staging_path url) = Ok tt /\
    w' = log (EvWrite (staging_path url) data)
           (log (EvOpen (staging_path url)) w3).
Proof.
  intros H.
  pose proof (Model_init_Ok P _ _ _ _ _ H) as Hinfo.
  apply get_model_info_Ok in Hinfo
    as (s & i & _ & _ & _ & _ & _ & Hs & Hi & _).
  cbn [_server _id] in Hs, Hi. subst server model_id.
  unfold Model_init in H. cbn [is_None orb] in H.
  rewrite (get_model_info_unfold _ w s i) in H by reflexivity.
  cbv zeta in H.
  destruct (requests_get P (gets_made w) _) as [resp | e] eqn:Hget;
    [| discriminate].
  destruct (status_code resp =? 200) eqn:H200; [| discriminate].
  cbn [negb] in H.
  destruct (json_body resp) as [meta | e] eqn:Hmeta; [| discriminate].
  destruct (is_None (value meta "id")) eqn:Hid; [discriminate |].
  destruct (is_None (value meta "url")) eqn:Hurl; [discriminate |].
  cbn [orb] in H.
  destruct (value meta "url") as [| | | url |] eqn:Eurl;
    cbn [py_str last_segment] in H;
    try (destruct (requests_get P (S (gets_made w)) _) as [r2 | e];
         [destruct (negb (status_code r2 =? 200)) |];
         cbv beta iota in H; discriminate H).
  destruct (requests_get P (S (gets_made w)) url) as [resp2 | e] eqn:Hget2;
    [| discriminate].
  destruct (status_code resp2 =? 200) eqn:H200'; [| discriminate].
  cbn [negb] in H. fold (staging_path url) in H.
  set (w2 := log (EvGet url) _) in *.
  destruct (if truthy (value meta "encrypted") then _ else _)
    as [[data | e] w3] eqn:Edata; [| discriminate].
  destruct (open_write P (staging_path url) data w3) as [[[] | e] w4] eqn:Eopen;
    [| discriminate].
  injection H as <- <-.
  unfold open_write in Eopen.
  destruct (open_wb P (staging_path url)) as [[] | e] eqn:Eo; [| discriminate].
  destruct data as [d |]; [| discriminate].
  destruct (file_write P (staging_path url) d) as [[] | e] eqn:Ew;
    [| discriminate].
  injection Eopen as <-.
  exists s, i, resp, meta, url, resp2, d, w3.
  apply Z.eqb_eq in H200, H200'.
  assert (value meta "id" <> PNone) by (intros E; rewrite E in Hid; discriminate).
  repeat split; auto.
Qed.

(** X14. In every run the constructor makes at most two GET requests,
    and they are the first things that happen.  Whenever it raises, one
    of three holds: no file was touched; or the staging file was opened
    and [write] was not called on bytes, because [open] raised that
    exception or the data was [None]; or [write] was called once, on the
    opened staging file, and raised that exception. *)
Theorem failing_retrieval_and_the_staging_file (server model_id : pyval)
    (w : World) :
  (exists gets rest,
     events_of (Model_init P server model_id) w = gets ++ rest /\
     Forall (fun ev => is_get ev = true) gets /\
     (length gets <= 2)%nat /\
     Forall (fun ev => is_get ev = false) rest) /\
  (forall e, fst (Model_init P server model_id w) = Raise e ->
   Forall (fun ev => is_file_event ev = false)
     (events_of (Model_init P server model_id) w) \/
   (exists before p,
      events_of (Model_init P server model_id) w = before ++ [EvOpen p] /\
      Forall (fun ev => is_file_event ev = false) before /\
      (open_wb P p = Raise e \/
       e = TypeError "a bytes-like object is required, not 'NoneType'")) \/
   (exists before p d,
      events_of (Model_init P server model_id) w
      = before ++ [EvOpen p; EvWrite p d] /\
      Forall (fun ev => is_file_event ev = false) before /\
      file_write P p d = Raise e)).
Proof.
  destruct (Model_init_events server model_id w)
    as (gets & broker & files & Hev & Hgets & Hlen & Hbroker & Hfiles).
  rewrite Hev.
  assert (Hbefore : Forall (fun ev => is_file_event ev = false)
                      (gets ++ broker)).
  { apply Forall_app. split.
    - eapply Forall_impl; [exact Hgets |]. intros ev H. now destruct ev.
    - eapply Forall_impl; [exact Hbroker |]. intros ev H. now destruct ev. }
  split.
  - exists gets, (broker ++ files). repeat split; auto.
    apply Forall_app. split.
    + eapply Forall_impl; [exact Hbroker |]. intros ev H. now destruct ev.
    + destruct Hfiles
        as [[-> _] | [(p & e & -> & _) | [(p & d & e & -> & _)
                                         | (p & d & m & -> & _)]]];
        repeat constructor.
  - intros e He. rewrite !app_assoc.
    destruct Hfiles
      as [[-> _] | [(p & e' & -> & He' & Hwhy)
                   | [(p & d & e' & -> & He' & Hwhy) | (p & d & m & _ & Hok)]]].
    + left. now rewrite app_nil_r.
    + right. left. exists (gets ++ broker), p.
      rewrite He in He'. injection He' as <-. auto.
    + right. right. exists (gets ++ broker), p, d.
      rewrite He in He'. injection He' as <-. auto.
    + congruence.
Qed.

(** The trace behind a constructor that returns: the two GETs, what the
    key broker client did, the staging file. *)
Lemma Model_init_success_trace (server model_id : pyval) (m : Model)
    (w w' : World) :
  Model_init P server model_id w = (Ok m, w') ->
  exists s i meta url broker data,
    server = PStr s /\ model_id = PStr i /\
    value meta "url" = PStr url /\
    path m = Some (staging_path url) /\
    Forall (fun e => is_broker_event e = true) broker /\
    (truthy (value meta "encrypted") = false -> broker = []) /\
    events_of (Model_init P server model_id) w
    = [EvGet ((s +:+ "/") +:+ i); EvGet url] ++ broker
      ++ [EvOpen (staging_path url); EvWrite (staging_path url) data].
Proof.
  intros H.
  destruct (Model_init_success _ _ _ _ _ H)
    as (s & i & resp & meta & url & resp2 & data & w3 & -> & -> & _ & _ & _
        & _ & Hurl & _ & _ & -> & Hdata & _ & Hw').
  set (w2 := log (EvGet url) _) in Hdata.
  assert (Hw2 : trace w2 = trace w ++ [EvGet ((s +:+ "/") +:+ i); EvGet url])
    by (subst w2; cbn; now rewrite <- app_assoc).
  assert (Hb : exists broker,
            trace w3 = trace w2 ++ broker /\
            Forall (fun e => is_broker_event e = true) broker /\
            (truthy (value meta "encrypted") = false -> broker = [])).
  { destruct (truthy (value meta "encrypted")).
    - destruct (decrypt_model_broker_events (value meta "kbs")
                  (value meta "kbs_url") (value meta "key_id")
                  (content resp2) w2) as (broker & Htr & Hall).
      rewrite Hdata in Htr. exists broker. repeat split; auto. discriminate.
    - injection Hdata as _ <-. exists []. rewrite app_nil_r.
      repeat split; auto. }
  destruct Hb as (broker & Hw3 & Hall & Hplain).
  exists s, i, meta, url, broker, data.
  repeat split; auto.
  unfold events_of. rewrite H. cbn [snd]. rewrite Hw'. cbn [trace log].
  rewrite Hw3, Hw2, <- !app_assoc. apply drop_app_length.
Qed.

(** X15. When the constructor returns, the staging file has been opened and
    written exactly once, as the last thing that happened, and it is the
    file of [model.path]. *)
Theorem retrieval_ends_with_one_write (server model_id : pyval) (m : Model)
    (w w' : World) :
  Model_init P server model_id w = (Ok m, w') ->
  exists before p d,
    events_of (Model_init P server model_id) w
    = before ++ [EvOpen p; EvWrite p d] /\
    path m = Some p /\
    Forall (fun e => is_file_event e = false) before.
Proof.
  intros H.
  destruct (Model_init_success_trace _ _ _ _ _ H)
    as (s & i & meta & url & broker & data & _ & _ & _ & Hpath & Hall & _
        & Hev).
  exists ([EvGet ((s +:+ "/") +:+ i); EvGet url] ++ broker),
    (staging_path url), data.
  rewrite Hev, <- app_assoc. repeat split; auto.
  apply Forall_app. split; [repeat constructor |].
  eapply Forall_impl; [exact Hall |]. intros ev Hev'. now destruct ev.
Qed.

(** X16. A model that is not marked encrypted is staged byte for byte as it
    was downloaded, and neither a key is generated nor the quote service
    or a key broker contacted: the run is the two GETs and the write. *)
Theorem plain_model_is_staged_as_downloaded (s i : string) (m : Model)
    (w w' : World) (resp resp2 : Response) (meta : gmap string pyval) :
  Model_init P (PStr s) (PStr i) w = (Ok m, w') ->
  requests_get P (gets_made w) ((s +:+ "/") +:+ i) = Ok resp ->
  json_body resp = Ok meta ->
  requests_get P (S (gets_made w)) (py_str (value meta "url")) = Ok resp2 ->
  truthy (value meta "encrypted") = false ->
  exists url,
    value meta "url" = PStr url /\
    events_of (Model_init P (PStr s) (PStr i)) w
    = [EvGet ((s +:+ "/") +:+ i); EvGet url;
       EvOpen (staging_path url);
       EvWrite (staging_path url) (content resp2)].
Proof.
  intros H Hget Hmeta Hget2 Hplain.
  destruct (Model_init_success _ _ _ _ _ H)
    as (s' & i' & resp' & meta' & url & resp2' & data & w3 & Hs & Hi & Hget'
        & _ & Hmeta' & _ & Hurl & Hget2' & _ & _ & Hdata & _ & Hw').
  injection Hs as <-. injection Hi as <-.
  rewrite Hget in Hget'. injection Hget' as <-.
  rewrite Hmeta in Hmeta'. injection Hmeta' as <-.
  rewrite Hurl in Hget2. cbn [py_str] in Hget2.
  rewrite Hget2 in Hget2'. injection Hget2' as <-.
  rewrite Hplain in Hdata. injection Hdata as <- <-.
  exists url. split; [exact Hurl |].
  unfold events_of. rewrite H. cbn [snd]. rewrite Hw'. cbn [trace log count_get].
  rewrite <- !app_assoc. apply drop_app_length.
Qed.

(** X17. A model marked encrypted is only ever staged through the [amber]
    broker: when the constructor returns, [kbs] is ["amber"], [get_key]
    has returned a key for the [kbs_url] and [key_id] of the metadata, and
    what is written is [decrypt_data] of the download under that key. *)
Theorem encrypted_model_is_staged_decrypted (s i : string) (m : Model)
    (w w' : World) (resp resp2 : Response) (meta : gmap string pyval) :
  Model_init P (PStr s) (PStr i) w = (Ok m, w') ->
  requests_get P (gets_made w) ((s +:+ "/") +:+ i) = Ok resp ->
  json_body resp = Ok meta ->
  requests_get P (S (gets_made w)) (py_str (value meta "url")) = Ok resp2 ->
  truthy (value meta "encrypted") = true ->
  value meta "kbs" = PStr "amber" /\
  exists url key w2 w3 plain,
    value meta "url" = PStr url /\
    get_key P (value meta "kbs_url") (value meta "key_id") w2 = (Ok key, w3) /\
    decrypt_data P (Some (content resp2)) (Some key) = Ok plain /\
    w' = log (EvWrite (staging_path url) plain)
           (log (EvOpen (staging_path url)) w3).
Proof.
  intros H Hget Hmeta Hget2 Henc.
  destruct (Model_init_success _ _ _ _ _ H)
    as (s' & i' & resp' & meta' & url & resp2' & data & w3 & Hs & Hi & Hget'
        & _ & Hmeta' & _ & Hurl & Hget2' & _ & _ & Hdata & _ & Hw').
  injection Hs as <-. injection Hi as <-.
  rewrite Hget in Hget'. injection Hget' as <-.
  rewrite Hmeta in Hmeta'. injection Hmeta' as <-.
  rewrite Hurl in Hget2. cbn [py_str] in Hget2.
  rewrite Hget2 in Hget2'. injection Hget2' as <-.
  rewrite Henc, decrypt_model_unfold in Hdata.
  destruct (value meta "kbs") as [| | | kbs |] eqn:Ekbs;
    cbn [eq_str] in Hdata; try discriminate.
  destruct (String.eqb kbs "amber") eqn:Eamber; [| discriminate].
  apply String.eqb_eq in Eamber. subst kbs. split; [reflexivity |].
  set (w2 := log (EvGet url) _) in Hdata.
  destruct (get_key P (value meta "kbs_url") (value meta "key_id") w2)
    as [[key | e] w3'] eqn:Ekey; [| discriminate].
  destruct (decrypt_data P (Some (content resp2)) (Some key))
    as [plain | e] eqn:Eplain; [| discriminate].
  cbn [on_result] in Hdata. injection Hdata as <- <-.
  exists url, key, w2, w3', plain. auto.
Qed.

(** X18. A constructed model never holds the binary it downloaded:
    [model_binary] is [None].  Its info carries the id that the metadata
    report, which is not compared with the id that was asked for, and the
    name, version, framework, target and dtype of the metadata, [None]
    where the metadata have none. *)
Theorem constructed_model_mirrors_metadata (server model_id : pyval)
    (m : Model) (w w' : World) :
  Model_init P server model_id w = (Ok m, w') ->
  model_binary m = None /\
  _id m = model_id /\ _server m = server /\
  exists s i resp meta info,
    server = PStr s /\ model_id = PStr i /\
    requests_get P (gets_made w) ((s +:+ "/") +:+ i) = Ok resp /\
    json_body resp = Ok meta /\
    model_info m = Some info /\
    info_id info = value meta "id" /\
    _details info
    = {| _name := value meta "name"; _version := value meta "version";
         _framework := value meta "framework";
         _target := value meta "target"; _dtype := value meta "dtype" |}.
Proof.
  intros H.
  destruct (Model_init_success _ _ _ _ _ H)
    as (s & i & resp & meta & url & resp2 & data & w3 & -> & -> & Hget
        & _ & Hmeta & _ & _ & _ & _ & -> & _).
  repeat split.
  exists s, i, resp, meta. eexists. repeat split; eauto.
Qed.

(** X19. [dict(model)] of a constructed model does not fail.  It has the two
    keys [model_info] and [model_binary]; [model_binary] is [None]; the
    info has the four keys [id], [details], [uploaded_date] and
    [metrics], with [uploaded_date] 0 and each of the five metrics 0. *)
Theorem constructed_model_as_dict (server model_id : pyval) (m : Model)
    (w w' : World) :
  Model_init P server model_id w = (Ok m, w') ->
  exists mi d info details mets,
    model_info m = Some mi /\
    Model_dict m = Ok d /\
    size d = 2%nat /\
    d !! "model_binary" = Some (OVal PNone) /\
    d !! "model_info" = Some (ODict info) /\
    size info = 4%nat /\
    info !! "id" = Some (OVal (info_id mi)) /\
    info !! "details" = Some (ODict details) /\
    info !! "uploaded_date" = Some (OVal (PInt 0)) /\
    info !! "metrics" = Some (ODict mets) /\
    size mets = 5%nat /\
    Forall (fun k => mets !! k = Some (OVal (PInt 0)))
      ["accuracy"; "precision"; "recall"; "f1_score"; "loss"].
Proof.
  intros H.
  destruct (Model_init_success _ _ _ _ _ H)
    as (s & i & resp & meta & url & resp2 & data & w3 & _ & _ & _
        & _ & _ & _ & _ & _ & _ & -> & _).
  unfold Model_dict, Model_iter, loaded, model_info.
  cbn [_model_info _model_binary on_result].
  eexists. exists (py_dict (
    [("model_info", ODict (py_dict (ModelInfo_iter
        {| info_id := value meta "id";
           _details :=
             {| _name := value meta "name"; _version := value meta "version";
                _framework := value meta "framework";
                _target := value meta "target";
                _dtype := value meta "dtype" |};
           _uploaded_date := PInt 0;
           _metrics :=
             {| _accuracy := PInt 0; _precision := PInt 0; _recall := PInt 0;
                _f1_score := PInt 0; _loss := PInt 0 |} |})));
     ("model_binary", OVal PNone)])).
  exists (py_dict (ModelInfo_iter
        {| info_id := value meta "id";
           _details :=
             {| _name := value meta "name"; _version := value meta "version";
                _framework := value meta "framework";
                _target := value meta "target";
                _dtype := value meta "dtype" |};
           _uploaded_date := PInt 0;
           _metrics :=
             {| _accuracy := PInt 0; _precision := PInt 0; _recall := PInt 0;
                _f1_score := PInt 0; _loss := PInt 0 |} |})).
  exists (py_dict (ModelDetails_iter
             {| _name := value meta "name"; _version := value meta "version";
                _framework := value meta "framework";
                _target := value meta "target";
                _dtype := value meta "dtype" |})).
  exists (py_dict (ModelMetrics_iter
             {| _accuracy := PInt 0; _precision := PInt 0; _recall := PInt 0;
                _f1_score := PInt 0; _loss := PInt 0 |})).
  split; [reflexivity |]. split; [reflexivity |].
  repeat split; try (vm_compute; reflexivity).
  repeat constructor.
Qed.

End Staging.

(** ** The name of the staging file *)

Lemma append_nil_l (s : string) : "" +:+ s = s.
Proof. reflexivity. Qed.

Lemma append_cons (c : ascii) (s t : string) :
  String c s +:+ t = String c (s +:+ t).
Proof. reflexivity. Qed.

Lemma split_not_nil (sep : ascii) (s : string) : split sep s <> [].
Proof.
  induction s as [| c s IH]; cbn; [discriminate |].
  destruct (Ascii.eqb c sep); [discriminate |].
  destruct (split sep s); [contradiction | discriminate].
Qed.

Lemma split_no_sep (sep : ascii) (s : string) :
  Forall (fun x => has_char sep x = false) (split sep s).
Proof.
  induction s as [| c s IH]; cbn; [repeat constructor |].
  destruct (Ascii.eqb c sep) eqn:Ec; [now constructor |].
  destruct (split sep s) as [| h t]; [repeat constructor; cbn |].
  - rewrite Ascii.eqb_sym, Ec. reflexivity.
  - inversion IH as [| ? ? Hh Ht]; subst. constructor; [| assumption].
    cbn. now rewrite Ascii.eqb_sym, Ec.
Qed.

Lemma last_item_in (l : list string) (d : string) :
  l <> [] -> In (last_item l d) l.
Proof.
  induction l as [| x l IH]; [congruence |]. intros _.
  destruct l as [| y l]; [now left |].
  right. apply IH. discriminate.
Qed.

Lemma has_char_replace_from (c : ascii) (old : string) (s : string) :
  forall skip, has_char c (replace_from old "" skip s) = true ->
               has_char c s = true.
Proof.
  induction s as [| d s IH]; intros skip H; [exact H |].
  cbn [replace_from] in H. cbn [has_char].
  destruct skip as [| k].
  - destruct (String.prefix old (String d s)).
    + rewrite append_nil_l in H. apply IH in H. rewrite H. apply orb_true_r.
    + cbn [has_char] in H. apply orb_true_iff in H as [H | H].
      * now rewrite H.
      * apply IH in H. rewrite H. apply orb_true_r.
  - apply IH in H. rewrite H. apply orb_true_r.
Qed.

Lemma has_char_lstrip (c : ascii) (s : string) :
  has_char c (lstrip s) = true -> has_char c s = true.
Proof.
  induction s as [| d s IH]; [auto |]. cbn [lstrip].
  destruct (isspace d); [| auto].
  intros H. apply IH in H. cbn. rewrite H. apply orb_true_r.
Qed.

Lemma has_char_rstrip (c : ascii) (s : string) :
  has_char c (rstrip s) = true -> has_char c s = true.
Proof.
  induction s as [| d s IH]; [auto |]. cbn [rstrip has_char].
  destruct (rstrip s) as [| e r].
  - destruct (isspace d); [discriminate |]. cbn.
    rewrite orb_false_r. intros ->. reflexivity.
  - cbn [has_char] in *. intros H.
    apply orb_true_iff in H as [H | H]; [now rewrite H |].
    rewrite IH by exact H. apply orb_true_r.
Qed.

Lemma split_app_sep (sep : ascii) (s : string) :
  split sep (s +:+ String sep "") = split sep s ++ [EmptyString].
Proof.
  induction s as [| c s IH]; rewrite ?append_nil_l, ?append_cons; cbn [split].
  - now rewrite Ascii.eqb_refl.
  - destruct (Ascii.eqb c sep); [now rewrite IH |].
    rewrite IH. pose proof (split_not_nil sep s).
    destruct (split sep s); [contradiction | reflexivity].
Qed.

Lemma last_item_snoc (l : list string) (x d : string) :
  last_item (l ++ [x]) d = x.
Proof.
  induction l as [| y l IH]; [reflexivity |].
  cbn [app last_item]. destruct (l ++ [x]) eqn:E; [| exact IH].
  now destruct l.
Qed.

Lemma length_replace_from (old s : string) :
  forall skip,
  (String.length (replace_from old "" skip s) <= String.length s)%nat.
Proof.
  induction s as [| d s IH]; intros skip; [cbn; lia |].
  cbn [replace_from String.length]. destruct skip as [| k].
  - destruct (String.prefix old (String d s)).
    + rewrite append_nil_l. specialize (IH (String.length old - 1)%nat). lia.
    + cbn [String.length]. specialize (IH 0%nat). lia.
  - specialize (IH k). lia.
Qed.

(** Appending [.enc] to a name does not give the name an earlier match of
    [.enc]. *)
Lemma prefix_enc_app (c : ascii) (b : string) :
  String.prefix ".enc" (String c b) = false ->
  String.prefix ".enc" (String c (b +:+ ".enc")) = false.
Proof.
  cbn [String.prefix].
  destruct (ascii_dec "." c); [| reflexivity].
  destruct b as [| c1 b]; rewrite ?append_nil_l, ?append_cons;
    cbn [String.prefix].
  { now destruct (ascii_dec "e" "."). }
  destruct (ascii_dec "e" c1); [| reflexivity].
  destruct b as [| c2 b]; rewrite ?append_nil_l, ?append_cons;
    cbn [String.prefix].
  { now destruct (ascii_dec "n" "."). }
  destruct (ascii_dec "n" c2); [| reflexivity].
  destruct b as [| c3 b]; rewrite ?append_nil_l, ?append_cons;
    cbn [String.prefix].
  { now destruct (ascii_dec "c" "."). }
  destruct (ascii_dec "c" c3); [| reflexivity].
  intros H. destruct b; discriminate H.
Qed.

Lemma replace_enc_suffix (base : string) :
  replace ".enc" "" base = base ->
  replace ".enc" "" (base +:+ ".enc") = base.
Proof.
  unfold replace. induction base as [| c b IH]; intros H; [reflexivity |].
  cbn [replace_from] in H. rewrite append_cons. cbn [replace_from].
  destruct (String.prefix ".enc" (String c b)) eqn:Ep.
  - rewrite append_nil_l in H. apply (f_equal String.length) in H.
    pose proof (length_replace_from ".enc" b (String.length ".enc" - 1)).
    cbn [String.length] in *. lia.
  - rewrite (prefix_enc_app c b Ep). injection H as H. now rewrite IH.
Qed.

Lemma length_append (s t : string) :
  String.length (s +:+ t) = (String.length s + String.length t)%nat.
Proof.
  induction s as [| c s IH]; [reflexivity |].
  rewrite append_cons. cbn [String.length]. now rewrite IH.
Qed.

Lemma strip_suffix_app (suffix base : string) :
  strip_suffix suffix (base +:+ suffix) = base.
Proof.
  induction base as [| c b IH].
  - rewrite append_nil_l. destruct suffix as [| d t]; [reflexivity |].
    cbn [strip_suffix]. now rewrite String.eqb_refl.
  - rewrite append_cons. cbn [strip_suffix].
    destruct (String.eqb (String c (b +:+ suffix)) suffix) eqn:E.
    + apply String.eqb_eq, (f_equal String.length) in E.
      cbn [String.length] in E. rewrite length_append in E. lia.
    + now rewrite IH.
Qed.

Lemma has_char_append (c : ascii) (s t : string) :
  has_char c (s +:+ t) = has_char c s || has_char c t.
Proof.
  induction s as [| d s IH]; [reflexivity |].
  rewrite append_cons. cbn [has_char]. now rewrite IH, orb_assoc.
Qed.

Lemma split_whole (sep : ascii) (s : string) :
  has_char sep s = false -> split sep s = [s].
Proof.
  induction s as [| c s IH]; [reflexivity |]. cbn [has_char split].
  intros H. apply orb_false_elim in H as [Hc Hs].
  rewrite Ascii.eqb_sym, Hc, IH by assumption. reflexivity.
Qed.

Lemma split_app_cons (sep : ascii) (a b : string) :
  split sep (a +:+ String sep b) = split sep a ++ split sep b.
Proof.
  induction a as [| c a IH]; rewrite ?append_nil_l, ?append_cons; cbn [split].
  - now rewrite Ascii.eqb_refl.
  - destruct (Ascii.eqb c sep); [now rewrite IH |].
    rewrite IH. pose proof (split_not_nil sep a).
    destruct (split sep a); [contradiction | reflexivity].
Qed.

(** X20. The staging path is [/tmp/] followed by a name without [/], and
    the name is made from the text after the last [/] of the whole URL
    string alone: what stands before that [/] plays no part, be it the
    host, the directories, or the beginning of a query string.  The name
    need not name a file in [/tmp]: for a URL that ends in [/] it is
    empty and the staging path is [/tmp/], the directory; for a URL that
    ends in [/..] the staging path is [/tmp/..]. *)
Theorem staging_name_is_text_after_last_slash (url tail : string) :
  (exists name, staging_path url = "/tmp/" +:+ name /\
                has_char "/" name = false) /\
  (has_char "/" tail = false ->
   staging_path (url +:+ String "/" tail)
   = "/tmp/" +:+ strip (replace ".enc" "" tail)) /\
  staging_path (url +:+ "/") = "/tmp/" /\
  staging_path (url +:+ "/..") = "/tmp/..".
Proof.
  assert (Htail : forall t, has_char "/" t = false ->
            staging_path (url +:+ String "/" t)
            = "/tmp/" +:+ strip (replace ".enc" "" t)).
  { intros t Ht. unfold staging_path.
    now rewrite split_app_cons, (split_whole "/" t Ht), last_item_snoc. }
  split; [| split; [apply Htail | split]].
  - eexists. split; [reflexivity |].
    destruct (has_char "/" _) eqn:E; [| reflexivity].
    unfold strip in E.
    apply has_char_rstrip, has_char_lstrip, has_char_replace_from in E.
    pose proof (split_no_sep "/" url) as Hall.
    rewrite Forall_forall in Hall.
    rewrite (Hall (last_item (split "/" url) "")) in E; [discriminate |].
    apply list_elem_of_In, last_item_in, split_not_nil.
  - now rewrite (Htail "").
  - now rewrite (Htail "..").
Qed.

(** X21. For a URL whose last segment is a name followed by [.enc], where the
    name itself holds no [.enc] and has no white space at its ends, the
    staging name is that name: here the code does strip just the trailing
    [.enc]. *)
Theorem staging_name_of_ordinary_url (dir base : string) :
  has_char "/" base = false ->
  replace ".enc" "" base = base ->
  strip base = base ->
  staging_path (dir +:+ String "/" (base +:+ ".enc")) = "/tmp/" +:+ base /\
  strip_suffix ".enc" (base +:+ ".enc") = base.
Proof.
  intros Hslash Henc Hstrip. split; [| apply strip_suffix_app].
  unfold staging_path.
  assert (Hseg : has_char "/" (base +:+ ".enc") = false)
    by (rewrite has_char_append, Hslash; reflexivity).
  rewrite split_app_cons, (split_whole "/" _ Hseg), last_item_snoc.
  now rewrite replace_enc_suffix, Hstrip.
Qed.

(** ** The further properties on the demonstration platforms *)

Lemma get_key_posts_the_quote_witness :
  let P := Demo.platform Demo.kbs_flaky Demo.no_web in
  let su := PStr "https://kbs" in
  let kid := PStr "k1" in
  let req := {| quote := "UUFRQUJBQUU9"; user_data := "AQABAAE=" |} in
  let k := rsa_generate_private_key P 0 65537 3072 in
  let nonce := b64encode (public_bytes P (public_key k)) in
  "https://kbs/keys/k1/transfer" = transfer_url su kid /\
  user_data req = nonce /\
  exists q, ccnp_get_quote P nonce = Ok (Some q) /\ quote req = b64encode q.
Proof.
  intros P su kid req k nonce.
  apply (get_key_posts_the_quote P su kid world0
           "https://kbs/keys/k1/transfer" req PostConnectionError).
  vm_compute. right. right. left. reflexivity.
Defined.

Lemma get_key_returns_unwrapped_key_witness :
  let P := Demo.platform Demo.kbs_flaky Demo.no_web in
  let su := PStr "https://kbs" in
  let kid := PStr "k1" in
  let k := rsa_generate_private_key P 0 65537 3072 in
  let nonce := b64encode (public_bytes P (public_key k)) in
  exists q i resp body wk ws wrapped_key wrapped_swk swk,
    ccnp_get_quote P nonce = Ok (Some q) /\
    (i < 3)%nat /\
    requests_post P (i + 0) (transfer_url su kid)
      {| quote := b64encode q; user_data := nonce |} = PostResponse resp /\
    status_code resp = 200 /\
    json_body resp = Ok body /\
    body !! "wrapped_key" = Some wk /\
    body !! "wrapped_swk" = Some ws /\
    b64decode P wk = Ok wrapped_key /\
    b64decode P ws = Ok wrapped_swk /\
    rsa_oaep_decrypt P k wrapped_swk = Ok swk /\
    decrypt_data P (Some wrapped_key) (Some swk) = Ok Demo.content_key.
Proof.
  intros P su kid k nonce.
  destruct (get_key P su kid world0) as [r w'] eqn:Hrun.
  assert (Hr : r = Ok Demo.content_key).
  { change r with (fst (r, w')). rewrite <- Hrun. vm_compute. reflexivity. }
  subst r.
  apply (get_key_returns_unwrapped_key P su kid world0 w' Demo.content_key Hrun).
Defined.

Lemma get_key_without_quote_witness :
  let P := Scenario.no_tee in
  let su := PStr "https://kbs" in
  let kid := PStr "k1" in
  let k := rsa_generate_private_key P 0 65537 3072 in
  let nonce := b64encode (public_bytes P (public_key k)) in
  fst (get_key P su kid world0) = Raise (RuntimeError "Get TDX Quote failed") /\
  events_of (get_key P su kid) world0
  = [EvGenerateKey 65537 3072; EvGetQuote nonce].
Proof.
  intros P su kid k nonce.
  apply (get_key_without_quote P su kid world0);
    [discriminate | discriminate |].
  left. split; reflexivity.
Defined.

Lemma get_key_gives_up_witness :
  let P := Demo.platform Scenario.kbs_troubled Demo.no_web in
  let su := PStr "https://kbs" in
  let kid := PStr "k1" in
  fst (get_key P su kid world0)
  = Raise (RuntimeError "Unexpected response from Amber KBS") /\
  length (posts_of (events_of (get_key P su kid) world0)) = 3%nat.
Proof.
  intros P su kid.
  apply (get_key_gives_up P su kid world0);
    [discriminate | discriminate | eexists; reflexivity |].
  intros [| [| i]] url rq Hi; reflexivity.
Defined.

Lemma get_key_empty_response_witness :
  let P := Demo.platform Scenario.kbs_incomplete Demo.no_web in
  let su := PStr "https://kbs" in
  let kid := PStr "k1" in
  fst (get_key P su kid world0)
  = Raise (RuntimeError "Empty key response from Amber KBS") /\
  posts_of (events_of (get_key P su kid) world0)
  = [PostResponse Scenario.incomplete].
Proof.
  intros P su kid.
  eapply (get_key_empty_response P su kid world0 Scenario.incomplete);
    [discriminate | discriminate | eexists; reflexivity
    | intros url rq; reflexivity | reflexivity | reflexivity |].
  right. vm_compute. reflexivity.
Defined.

Lemma decrypt_data_layout_witness :
  let P := Demo.platform Demo.kbs_flaky Demo.no_web in
  let header := Demo.bytes_of [12; 0; 0; 0; 16; 0; 0; 0; 16; 0; 0; 0] in
  let tag := Demo.tag16 Demo.swk Demo.iv12 Demo.content_key in
  decrypt_data P (Some (header ++ Demo.iv12 ++ Demo.content_key ++ tag))
    (Some Demo.swk)
  = aes_gcm_decrypt P Demo.swk Demo.iv12 tag Demo.content_key.
Proof.
  intros P header tag.
  apply (decrypt_data_layout P header Demo.iv12 Demo.content_key tag
           Demo.swk 16).
  - vm_compute. reflexivity.
  - vm_compute. lia.
Defined.

Lemma decrypt_data_rejects_witness :
  let P := Demo.platform Demo.kbs_flaky Demo.no_web in
  decrypt_data P (Some (Demo.bytes_of [12; 0; 0; 0; 16])) (Some Demo.swk)
  = Raise (StructError "unpack requires a buffer of 12 bytes").
Proof.
  intros P.
  apply (proj2 (proj2 (decrypt_data_rejects P (Demo.bytes_of [12; 0; 0; 0; 16])
                         None (Some Demo.swk)))).
  - cbn. lia.
  - discriminate.
Defined.

Lemma decrypt_data_accepts_only_witness :
  let P := Demo.platform Demo.kbs_flaky Demo.no_web in
  (20 <= length Demo.sealed_key)%nat /\
  8 <= env_iv_len Demo.sealed_key /\
  1 <= env_tag_len Demo.sealed_key <= 16.
Proof.
  intros P.
  apply (decrypt_data_accepts_only P Demo.sealed_key Demo.swk Demo.content_key).
  - apply demo_gcm_checks_lengths.
  - vm_compute. reflexivity.
Defined.

Lemma decrypt_data_iv_overrun_witness :
  let P := Demo.platform Demo.kbs_flaky Demo.no_web in
  decrypt_data P (Some Scenario.long_iv) (Some Demo.swk)
  = aes_gcm_decrypt P Demo.swk (drop 12 Scenario.long_iv)
      (drop (length Scenario.long_iv
             - Z.to_nat (env_tag_len Scenario.long_iv)) Scenario.long_iv) [].
Proof.
  intros P. apply (decrypt_data_iv_overrun P Scenario.long_iv Demo.swk).
  - vm_compute. lia.
  - vm_compute. discriminate.
  - vm_compute. reflexivity.
Defined.

Lemma Model_init_rejects_witness :
  let P := Demo.platform Demo.kbs_flaky Demo.no_web in
  (exists e, Model_init P PNone (PStr "m1") world0 = (Raise e, world0) /\
     (PNone = PNone \/ PStr "m1" = PNone ->
      e = ValueError "Model server or model id can not be None")) /\
  events_of (Model_init P PNone (PStr "m1")) world0 = [].
Proof.
  intros P. apply (Model_init_rejects P PNone (PStr "m1") world0).
  left. intros s. discriminate.
Defined.

Lemma metadata_status_not_200_witness :
  let P := Demo.platform Demo.kbs_flaky Scenario.web_404 in
  fst (Model_init P (PStr "http://models") (PStr "m1") world0)
  = Raise (ConnectionError "Connect model server failed, error code: " 404) /\
  events_of (Model_init P (PStr "http://models") (PStr "m1")) world0
  = [EvGet (("http://models" +:+ "/") +:+ "m1")].
Proof.
  intros P.
  apply (metadata_status_not_200 P "http://models" "m1" world0
           (Demo.response 404 [] [])).
  - reflexivity.
  - cbn. lia.
Defined.

Lemma metadata_without_id_or_url_witness :
  let P := Demo.platform Demo.kbs_flaky
             (Demo.web Scenario.meta_no_url "" []) in
  fst (Model_init P (PStr "http://models") (PStr "m1") world0)
  = Raise (RuntimeError "Model meta data is not valid") /\
  events_of (Model_init P (PStr "http://models") (PStr "m1")) world0
  = [EvGet (("http://models" +:+ "/") +:+ "m1")].
Proof.
  intros P.
  apply (metadata_without_id_or_url P "http://models" "m1" world0
           (Demo.response 200 Scenario.meta_no_url [])
           (list_to_map Scenario.meta_no_url)).
  - reflexivity.
  - reflexivity.
  - reflexivity.
  - right. vm_compute. reflexivity.
Defined.

Lemma download_status_not_200_witness :
  let P := Demo.platform Demo.kbs_flaky Scenario.web_forbidden in
  let meta := list_to_map Demo.meta_plain in
  fst (Model_init P (PStr "http://models") (PStr "m1") world0)
  = Raise (ConnectionError "Download model from server failed, error code: "
             403) /\
  events_of (Model_init P (PStr "http://models") (PStr "m1")) world0
  = [EvGet (("http://models" +:+ "/") +:+ "m1");
     EvGet (py_str (value meta "url"))].
Proof.
  intros P meta.
  apply (download_status_not_200 P "http://models" "m1" world0
           (Demo.response 200 Demo.meta_plain []) (Demo.response 403 [] [])
           meta).
  - reflexivity.
  - reflexivity.
  - reflexivity.
  - vm_compute. discriminate.
  - vm_compute. discriminate.
  - vm_compute. reflexivity.
  - cbn. lia.
Defined.

(** On a full disk the constructor raises the [OSError] of [write], after
    the staging file was opened and [write] called on the download. *)
Example retrieval_on_a_full_disk :
  let run := Model_init Scenario.full_disk
               (PStr "http://models") (PStr "m1") world0 in
  on_result path (fst run) = Raise Scenario.no_space /\
  trace (snd run)
  = [EvGet "http://models/m1"; EvGet "http://files/yolo.onnx";
     EvOpen "/tmp/yolo.onnx"; EvWrite "/tmp/yolo.onnx" Demo.model_plain].
Proof. vm_compute. split; reflexivity. Qed.

Lemma failing_retrieval_and_the_staging_file_witness :
  let P := Demo.model_platform Demo.meta_vault in
  let run := Model_init P (PStr "http://models") (PStr "m1") in
  let e := TypeError "a bytes-like object is required, not 'NoneType'" in
  Forall (fun ev => is_file_event ev = false) (events_of run world0) \/
  (exists before p,
     events_of run world0 = before ++ [EvOpen p] /\
     Forall (fun ev => is_file_event ev = false) before /\
     (open_wb P p = Raise e \/
      e = TypeError "a bytes-like object is required, not 'NoneType'")) \/
  (exists before p d,
     events_of run world0 = before ++ [EvOpen p; EvWrite p d] /\
     Forall (fun ev => is_file_event ev = false) before /\
     file_write P p d = Raise e).
Proof.
  intros P run e.
  apply (proj2 (failing_retrieval_and_the_staging_file P
                  (PStr "http://models") (PStr "m1") world0) e).
  vm_compute. reflexivity.
Defined.

Lemma retrieval_ends_with_one_write_witness :
  let P := Demo.model_platform Demo.meta_encoder in
  exists m w',
    Model_init P (PStr "http://models") (PStr "m1") world0 = (Ok m, w') /\
    exists before p d,
      events_of (Model_init P (PStr "http://models") (PStr "m1")) world0
      = before ++ [EvOpen p; EvWrite p d] /\
      path m = Some p /\
      Forall (fun e => is_file_event e = false) before.
Proof.
  intros P.
  destruct (Model_init P (PStr "http://models") (PStr "m1") world0)
    as [[m | e] w'] eqn:E.
  - exists m, w'. split; [reflexivity |].
    apply (retrieval_ends_with_one_write P (PStr "http://models") (PStr "m1")
             m world0 w' E).
  - exfalso. revert E. vm_compute. discriminate.
Defined.

Lemma plain_model_is_staged_as_downloaded_witness :
  let P := Demo.platform Demo.kbs_down
             (Demo.web Demo.meta_plain "http://files/yolo.onnx"
                Demo.model_plain) in
  exists url,
    value (list_to_map Demo.meta_plain) "url" = PStr url /\
    events_of (Model_init P (PStr "http://models") (PStr "m1")) world0
    = [EvGet (("http://models" +:+ "/") +:+ "m1"); EvGet url;
       EvOpen (staging_path url);
       EvWrite (staging_path url) Demo.model_plain].
Proof.
  intros P.
  destruct (Model_init P (PStr "http://models") (PStr "m1") world0)
    as [[m | e] w'] eqn:E.
  - apply (plain_model_is_staged_as_downloaded P "http://models" "m1" m
             world0 w' (Demo.response 200 Demo.meta_plain [])
             (Demo.response 200 [] Demo.model_plain)
             (list_to_map Demo.meta_plain) E).
    + reflexivity.
    + reflexivity.
    + vm_compute. reflexivity.
    + vm_compute. reflexivity.
  - exfalso. revert E. vm_compute. discriminate.
Defined.

Lemma encrypted_model_is_staged_decrypted_witness :
  let P := Demo.model_platform Demo.meta_encoder in
  let meta : gmap string pyval := list_to_map Demo.meta_encoder in
  value meta "kbs" = PStr "amber" /\
  exists m w' url key w2 w3 plain,
    Model_init P (PStr "http://models") (PStr "m1") world0 = (Ok m, w') /\
    value meta "url" = PStr url /\
    get_key P (value meta "kbs_url") (value meta "key_id") w2 = (Ok key, w3) /\
    decrypt_data P (Some Demo.model_sealed) (Some key) = Ok plain /\
    w' = log (EvWrite (staging_path url) plain)
           (log (EvOpen (staging_path url)) w3).
Proof.
  intros P meta.
  destruct (Model_init P (PStr "http://models") (PStr "m1") world0)
    as [[m | e] w'] eqn:E.
  - destruct (encrypted_model_is_staged_decrypted P "http://models" "m1" m
                world0 w' (Demo.response 200 Demo.meta_encoder [])
                (Demo.response 200 [] Demo.model_sealed) meta E)
      as (Hkbs & url & key & w2 & w3 & plain & H).
    + reflexivity.
    + reflexivity.
    + vm_compute. reflexivity.
    + vm_compute. reflexivity.
    + split; [exact Hkbs |]. exists m, w', url, key, w2, w3, plain.
      split; [reflexivity | exact H].
  - exfalso. revert E. vm_compute. discriminate.
Defined.

Lemma constructed_model_mirrors_metadata_witness :
  let P := Demo.model_platform Demo.meta_encoder in
  exists m w',
    Model_init P (PStr "http://models") (PStr "m1") world0 = (Ok m, w') /\
    model_binary m = None /\
    _id m = PStr "m1" /\ _server m = PStr "http://models".
Proof.
  intros P.
  destruct (Model_init P (PStr "http://models") (PStr "m1") world0)
    as [[m | e] w'] eqn:E.
  - exists m, w'. split; [reflexivity |].
    destruct (constructed_model_mirrors_metadata P (PStr "http://models")
                (PStr "m1") m world0 w' E) as (Hb & Hi & Hs & _).
    auto.
  - exfalso. revert E. vm_compute. discriminate.
Defined.

Lemma constructed_model_as_dict_witness :
  let P := Demo.model_platform Demo.meta_encoder in
  exists m w' d,
    Model_init P (PStr "http://models") (PStr "m1") world0 = (Ok m, w') /\
    Model_dict m = Ok d /\
    size d = 2%nat /\
    d !! "model_binary" = Some (OVal PNone).
Proof.
  intros P.
  destruct (Model_init P (PStr "http://models") (PStr "m1") world0)
    as [[m | e] w'] eqn:E.
  - destruct (constructed_model_as_dict P (PStr "http://models")
                (PStr "m1") m world0 w' E)
      as (mi & d & info & details & mets & _ & Hd & Hsize & Hbin & _).
    exists m, w', d. auto.
  - exfalso. revert E. vm_compute. discriminate.
Defined.

(** A signed URL: the name is taken from the query string. *)
Lemma staging_name_is_text_after_last_slash_witness :
  staging_path "http://files/m.onnx.enc?sig=a/b" = "/tmp/b".
Proof.
  apply (proj1 (proj2 (staging_name_is_text_after_last_slash
                         "http://files/m.onnx.enc?sig=a" "b"))).
  reflexivity.
Defined.

Lemma staging_name_of_ordinary_url_witness :
  staging_path ("http://files" +:+ String "/" ("yolo.onnx" +:+ ".enc"))
  = "/tmp/" +:+ "yolo.onnx" /\
  strip_suffix ".enc" ("yolo.onnx" +:+ ".enc") = "yolo.onnx".
Proof.
  apply (staging_name_of_ordinary_url "http://files" "yolo.onnx");
    vm_compute; reflexivity.
Defined.
